(** * cpc.geofiles.reading: a shallow embedding of [read_grib]

    The module [Reading] embeds [src/cpc/geofiles/reading.py].  The function
    talks to the operating system (file tests, a shell pipeline, a temporary
    file); those effects are modelled by a state-and-exception monad over a
    file store and an event trace, with the behaviour of the shell supplied
    by an environment record. *)

From Stdlib Require Import ZArith String Ascii List Lia DecimalString.
From stdpp Require Import base option list gmap strings.

Local Open Scope string_scope.
Local Open Scope list_scope.

Module Reading.

(** ** Python values *)

(** A [numpy.float32] element, kept as the four bytes read from the decoder:
    the function moves elements around and never computes with them. *)
Definition float32 : Type := (Byte.byte * Byte.byte * Byte.byte * Byte.byte)%type.

(** The [GeoGrid] attributes that [read_grib] reads: the numbers of grid
    points in the y and in the x direction. *)
Record GeoGrid : Type := mkGeoGrid { num_y : nat; num_x : nat }.

(** Exception classes that can arise in [read_grib]. *)
Inductive exn_class : Type :=
| ReadingError
| ValueError
| AttributeError
| FileNotFoundError
| OSError
| UnboundLocalError.

(** A raised exception: its class and [str(e)]. *)
Record exn : Type := mkExn { exn_cls : exn_class; exn_msg : string }.

Definition exn_class_eqb (c1 c2 : exn_class) : bool :=
  match c1, c2 with
  | ReadingError, ReadingError
  | ValueError, ValueError
  | AttributeError, AttributeError
  | FileNotFoundError, FileNotFoundError
  | OSError, OSError
  | UnboundLocalError, UnboundLocalError => true
  | _, _ => false
  end.

(** The arguments of [read_grib]. *)
Record args : Type := mkArgs {
  file : string;
  grib_type : string;
  grib_var : string;
  grib_level : string;
  grid : option GeoGrid;
  yrev : bool;
  grep_fhr : option string;
  debug : bool
}.

(** ** The world *)

(** What the function does to the outside, in order. *)
Inductive event : Type :=
| EvStdout (line : string)          (* print(...) *)
| EvCall (cmd : string)             (* subprocess.call(cmd, shell=True, ...) *)
| EvPopen (cmd : string)            (* subprocess.Popen(cmd, shell=True, ...) *)
| EvRemove (path : string).         (* os.remove(path) *)

(** The regular files of the file system and the events so far. *)
Record state : Type := mkState {
  fs : gmap string (list Byte.byte);
  trace : list event
}.

(** Running a shell command either raises in the parent (the launch failed)
    or the child runs: it leaves an exit status, the bytes it wrote to its
    standard output, and a changed file system. *)
Inductive run_result : Type :=
| Raised (e : exn) (fs' : gmap string (list Byte.byte))
| Completed (status : Z) (out : list Byte.byte) (fs' : gmap string (list Byte.byte)).

(** What the function cannot decide itself: the value of [uuid.uuid4()] and
    the behaviour of the shell on a command line. *)
Record Env : Type := mkEnv {
  uuid4 : string;
  shell : string -> gmap string (list Byte.byte) -> run_result
}.

(** ** The monad: state passing with exceptions *)

Definition M (A : Type) : Type := state -> (exn + A) * state.

Definition ret {A} (x : A) : M A := fun s => (inr x, s).

Definition raise {A} (e : exn) : M A := fun s => (inl e, s).

Definition bind {A B} (m : M A) (k : A -> M B) : M B :=
  fun s => match m s with
           | (inl e, s') => (inl e, s')
           | (inr x, s') => k x s'
           end.

(** [try: body except cls as e: handler e]; other classes propagate. *)
Definition try_except {A} (body : M A) (catches : exn -> bool) (handler : exn -> M A) : M A :=
  fun s => match body s with
           | (inl e, s') => if catches e then handler e s' else (inl e, s')
           | (inr x, s') => (inr x, s')
           end.

Declare Scope py_scope.
Delimit Scope py_scope with py.
Notation "x <- m ;; k" := (bind m (fun x => k))
  (at level 100, m at next level, right associativity) : py_scope.
Notation "m ;; k" := (bind m (fun _ => k))
  (at level 100, right associativity) : py_scope.
Local Open Scope py_scope.

Definition emit (ev : event) : M unit :=
  fun s => (inr tt, mkState (fs s) (trace s ++ [ev])).

(** ** Library calls *)

Definition dq : string := String "034"%char EmptyString.
Definition sq : string := String "039"%char EmptyString.

Definition str_nat (n : nat) : string := NilZero.string_of_uint (Nat.to_uint n).

Definition no_such_file (path : string) : exn :=
  mkExn FileNotFoundError ("[Errno 2] No such file or directory: " +:+ sq +:+ path +:+ sq).

(** [os.path.isfile] *)
Definition os_path_isfile (path : string) : M bool :=
  fun s => (inr (bool_decide (is_Some (fs s !! path))), s).

(** [os.remove] *)
Definition os_remove (path : string) : M unit :=
  fun s => match fs s !! path with
           | Some _ => (inr tt, mkState (delete path (fs s)) (trace s ++ [EvRemove path]))
           | None => (inl (no_such_file path), mkState (fs s) (trace s ++ [EvRemove path]))
           end.

(** [print] *)
Definition print (line : string) : M unit := emit (EvStdout line).

(** [subprocess.call(cmd, shell=True, stderr=DEVNULL, stdout=DEVNULL)]: waits
    for the child and returns its exit status. *)
Definition subprocess_call (env : Env) (cmd : string) : M Z :=
  fun s => match shell env cmd (fs s) with
           | Raised e fs' => (inl e, mkState fs' (trace s ++ [EvCall cmd]))
           | Completed status _ fs' => (inr status, mkState fs' (trace s ++ [EvCall cmd]))
           end.

(** [subprocess.Popen(cmd, shell=True, stderr=DEVNULL, stdout=PIPE)] followed
    later by [proc.stdout.read()]: the value kept for [proc] is what the
    child writes to the pipe until it closes it. *)
Definition subprocess_Popen (env : Env) (cmd : string) : M (list Byte.byte) :=
  fun s => match shell env cmd (fs s) with
           | Raised e fs' => (inl e, mkState fs' (trace s ++ [EvPopen cmd]))
           | Completed _ out fs' => (inr out, mkState fs' (trace s ++ [EvPopen cmd]))
           end.

(** Groups of four bytes; an incomplete last group is left out. *)
Fixpoint decode_f32 (bs : list Byte.byte) : list float32 :=
  match bs with
  | a :: b :: c :: d :: rest => (a, b, c, d) :: decode_f32 rest
  | _ => []
  end.

(** [np.fromfile(path, dtype=np.float32)]: as many whole items as the file
    holds. *)
Definition np_fromfile (path : string) : M (list float32) :=
  fun s => match fs s !! path with
           | Some bs => (inr (decode_f32 bs), s)
           | None => (inl (no_such_file path), s)
           end.

(** [np.frombuffer(bytearray(b), dtype='float32')]: the buffer must hold a
    whole number of items. *)
Definition np_frombuffer (b : list Byte.byte) : M (list float32) :=
  if (length b mod 4 =? 0)%nat then ret (decode_f32 b)
  else raise (mkExn ValueError "buffer size must be a multiple of element size").

(** The rows of a two-dimensional array with [r] rows of [c] columns whose
    elements, row after row, are [data]. *)
Fixpoint rows_of (r c : nat) (data : list float32) : list (list float32) :=
  match r with
  | O => []
  | S r' => take c data :: rows_of r' c (drop c data)
  end.

(** [np.reshape(data, (r, c))] of a one-dimensional array. *)
Definition np_reshape2 (data : list float32) (r c : nat) : M (list (list float32)) :=
  if (length data =? r * c)%nat then ret (rows_of r c data)
  else raise (mkExn ValueError
                ("cannot reshape array of size " +:+ str_nat (length data) +:+
                 " into shape (" +:+ str_nat r +:+ "," +:+ str_nat c +:+ ")")).

(** [np.flipud]: the rows in reverse order. *)
Definition np_flipud (m : list (list float32)) : list (list float32) := reverse m.

(** [np.reshape(m, m.size)]: the rows one after the other. *)
Definition np_flatten (m : list (list float32)) : list float32 := concat m.

(** [grid.num_y] and [grid.num_x], where [grid] may be [None]. *)
Definition getattr_grid (g : option GeoGrid) (name : string) (proj : GeoGrid -> nat) : M nat :=
  match g with
  | Some gg => ret (proj gg)
  | None => raise (mkExn AttributeError
                     (sq +:+ "NoneType" +:+ sq +:+ " object has no attribute " +:+ sq +:+ name +:+ sq))
  end.

(** ** [read_grib] *)

Definition module_name : string := "cpc.geofiles.reading".

(** Lines 67-68. *)
Definition temp_file (env : Env) : string := uuid4 env +:+ ".bin".

(** Lines 69-73: [if grep_fhr:] is Python truthiness, so [None] and the
    empty string both take the [else] branch. *)
Definition grep_fhr_str (a : args) : string :=
  match grep_fhr a with
  | Some (String c p) => String c p
  | _ => ".*"
  end.

(** The format string of lines 76-78 with its six arguments filled in. *)
Definition grib1_format (f var level fhr f' temp : string) : string :=
  "wgrib " +:+ dq +:+ f +:+ dq +:+
  " | grep " +:+ dq +:+ ":" +:+ var +:+ ":" +:+ dq +:+
  " | grep " +:+ dq +:+ ":" +:+ level +:+ ":" +:+ dq +:+
  " | grep -P " +:+ dq +:+ fhr +:+ dq +:+
  " | wgrib -i " +:+ dq +:+ f' +:+ dq +:+
  " -nh -bin -o " +:+ dq +:+ temp +:+ dq.

(** The format string of lines 81-83 with its four arguments filled in. *)
Definition grib2_format (f var level fhr : string) : string :=
  "wgrib2 " +:+ dq +:+ f +:+ dq +:+
  " -match " +:+ dq +:+ var +:+ dq +:+
  " -match " +:+ dq +:+ level +:+ dq +:+
  " -match " +:+ dq +:+ fhr +:+ dq +:+
  " -end -order we:sn -no_header -inv /dev/null -bin -".

(** Lines 75-85. *)
Definition wgrib_call (env : Env) (a : args) : M string :=
  if String.eqb (grib_type a) "grib1" then
    ret (grib1_format (file a) (grib_var a) (grib_level a) (grep_fhr_str a)
           (file a) (temp_file env))
  else if String.eqb (grib_type a) "grib2" then
    ret (grib2_format (file a) (grib_var a) (grib_level a) (grep_fhr_str a))
  else
    raise (mkExn ReadingError (module_name +:+ " requires grib_type to be grib1 or grib2")).

(** Lines 64-104: everything up to and including the read of the binary
    data. *)
Definition read_data (env : Env) (a : args) : M (list float32) :=
  isf <- os_path_isfile (file a) ;;
  if negb isf then raise (mkExn ReadingError "Grib file not found") else
  cmd <- wgrib_call env a ;;
  (if debug a then print ("wgrib command: " +:+ cmd) else ret tt) ;;
  proc <- try_except
            (if String.eqb (grib_type a) "grib1" then
               subprocess_call env cmd ;; ret None
             else
               out <- subprocess_Popen env cmd ;; ret (Some out))
            (fun _ => true)
            (fun e =>
               (if String.eqb (grib_type a) "grib1" then os_remove (temp_file env)
                else ret tt) ;;
               raise (mkExn ReadingError
                        ("Couldn" +:+ sq +:+ "t read " +:+ grib_type a +:+ " file: " +:+ exn_msg e))) ;;
  if String.eqb (grib_type a) "grib1" then
    np_fromfile (temp_file env)
  else
    match proc with
    | Some out => np_frombuffer out
    | None => raise (mkExn UnboundLocalError "proc")
    end.

(** Lines 110-120: the flip in the y direction. *)
Definition flip_y (g : option GeoGrid) (data : list float32) : M (list float32) :=
  m <- try_except
         (r <- getattr_grid g "num_y" num_y ;;
          c <- getattr_grid g "num_x" num_x ;;
          np_reshape2 data r c)
         (fun e => exn_class_eqb (exn_cls e) AttributeError)
         (fun _ => raise (mkExn ValueError
                            "The yrev parameter requires that the grid parameter be defined")) ;;
  ret (np_flatten (np_flipud m)).

(** Lines 105-122. *)
Definition finish (env : Env) (a : args) (data : list float32) : M (list float32) :=
  if (length data =? 0)%nat then raise (mkExn ReadingError "No grib record found") else
  (if String.eqb (grib_type a) "grib1" then os_remove (temp_file env) else ret tt) ;;
  if yrev a then flip_y (grid a) data else ret data.

Definition read_grib (env : Env) (a : args) : M (list float32) :=
  data <- read_data env a ;;
  finish env a data.

(** ** The vocabulary of the specification *)

(** The failures the specification names, as the exceptions the code
    raises for them. *)
Definition NotFound : exn := mkExn ReadingError "Grib file not found".

Definition UnsupportedFormat : exn :=
  mkExn ReadingError (module_name +:+ " requires grib_type to be grib1 or grib2").

Definition RecordNotFound : exn := mkExn ReadingError "No grib record found".

Definition DecodeError (a : args) (cause : exn) : exn :=
  mkExn ReadingError ("Couldn" +:+ sq +:+ "t read " +:+ grib_type a +:+ " file: " +:+ exn_msg cause).

Definition InvalidConfiguration (e : exn) : Prop := exn_cls e = ValueError.

(** An event that launches an external process. *)
Definition is_launch (ev : event) : bool :=
  match ev with
  | EvCall _ | EvPopen _ => true
  | _ => false
  end.

(** The events a run from [s] to [s'] added to the trace. *)
Definition new_events (s s' : state) : list event :=
  drop (length (trace s)) (trace s').

(** Whether a run from [s] to [s'] launched an external process. *)
Definition launched (s s' : state) : bool := existsb is_launch (new_events s s').

(** [a] with another [grid] argument. *)
Definition with_grid (g : option GeoGrid) (a : args) : args :=
  mkArgs (file a) (grib_type a) (grib_var a) (grib_level a) g (yrev a) (grep_fhr a) (debug a).

(** The forecast-hour pattern as the specification words it: the caller's
    pattern whenever there is one, the wildcard otherwise. *)
Definition pattern_as_specified (a : args) : string :=
  match grep_fhr a with
  | Some p => p
  | None => ".*"
  end.

(** The launch the code makes for a given forecast-hour pattern. *)
Definition launch_with (env : Env) (a : args) (fhr : string) (ev : event) : Prop :=
  ev = EvCall (grib1_format (file a) (grib_var a) (grib_level a) fhr (file a) (temp_file env))
  \/ ev = EvPopen (grib2_format (file a) (grib_var a) (grib_level a) fhr).

(** Every row of [m] has [c] elements. *)
Definition uniform (c : nat) (m : list (list float32)) : Prop :=
  Forall (fun row => length row = c) m.

(** The two command lines of a call. *)
Definition cmd1 (env : Env) (a : args) : string :=
  grib1_format (file a) (grib_var a) (grib_level a) (grep_fhr_str a) (file a) (temp_file env).

Definition cmd2 (a : args) : string :=
  grib2_format (file a) (grib_var a) (grib_level a) (grep_fhr_str a).

(** What line 87 prints. *)
Definition debug_events (a : args) (cmd : string) : list event :=
  if debug a then [EvStdout ("wgrib command: " +:+ cmd)] else [].

(** The state after lines 108-109, from the state [s1] after the read. *)
Definition cleaned (env : Env) (a : args) (s1 : state) : state :=
  if String.eqb (grib_type a) "grib1" then
    mkState (delete (temp_file env) (fs s1)) (trace s1 ++ [EvRemove (temp_file env)])
  else s1.

(** Every event a computation adds to the trace satisfies [P], and it
    removes none. *)
Definition emits {A} (P : event -> Prop) (m : M A) : Prop :=
  forall s, exists l, trace (snd (m s)) = trace s ++ l /\ Forall P l.

(** ** More vocabulary *)

(** [a] with another [debug] argument. *)
Definition with_debug (b : bool) (a : args) : args :=
  mkArgs (file a) (grib_type a) (grib_var a) (grib_level a) (grid a) (yrev a) (grep_fhr a) b.

(** The file system a shell run leaves behind. *)
Definition result_fs (r : run_result) : gmap string (list Byte.byte) :=
  match r with
  | Raised _ files => files
  | Completed _ _ files => files
  end.

(** The launch of a call of a recognised sub-format: [subprocess.call] of
    [cmd1] for grib1, [subprocess.Popen] of [cmd2] otherwise. *)
Definition the_launch (env : Env) (a : args) : event :=
  if String.eqb (grib_type a) "grib1" then EvCall (cmd1 env a) else EvPopen (cmd2 a).

Definition the_cmd (env : Env) (a : args) : string :=
  if String.eqb (grib_type a) "grib1" then cmd1 env a else cmd2 a.

(** Every exception a computation raises satisfies [E]. *)
Definition raises {A} (E : exn -> Prop) (m : M A) : Prop :=
  forall s e s', m s = (inl e, s') -> E e.

(** A computation relates the state it starts from to the state it ends
    in by [R]. *)
Definition keeps {A} (R : state -> state -> Prop) (m : M A) : Prop :=
  forall s, R s (snd (m s)).

(** Two computations that, started on the same file system, have the same
    outcome and end on the same file system, whatever the traces. *)
Definition sim {A} (m1 m2 : M A) : Prop :=
  forall s1 s2, fs s1 = fs s2 ->
    fst (m1 s1) = fst (m2 s2) /\ fs (snd (m1 s1)) = fs (snd (m2 s2)).

(** The exception classes that leave [read_grib]. *)
Definition may_escape (e : exn) : bool :=
  match exn_cls e with
  | ReadingError | ValueError | FileNotFoundError => true
  | _ => false
  end.

(** ** Concrete worlds and calls *)

Module Examples.

Definition b0 : Byte.byte := Byte.x00.

(** Four elements: a 2 x 2 grid, row after row. *)
Definition e1 : float32 := (Byte.x01, b0, b0, b0).
Definition e2 : float32 := (Byte.x02, b0, b0, b0).
Definition e3 : float32 := (Byte.x03, b0, b0, b0).
Definition e4 : float32 := (Byte.x04, b0, b0, b0).

Definition payload : list Byte.byte :=
  [Byte.x01; b0; b0; b0; Byte.x02; b0; b0; b0; Byte.x03; b0; b0; b0; Byte.x04; b0; b0; b0].

(** A file system that holds the archive [a.grb] and nothing else. *)
Definition s0 : state := mkState {[ "a.grb" := [] ]} [].

(** A file system without the archive. *)
Definition s_bare : state := mkState ∅ [].

(** The decoder finds the record: it writes it to the file [7c1e.bin] and
    to its standard output. *)
Definition env_found : Env :=
  mkEnv "7c1e" (fun _ files => Completed 0 payload (<["7c1e.bin" := payload]> files)).

(** The decoder finds no record: it leaves an empty file and writes
    nothing. *)
Definition env_no_record : Env :=
  mkEnv "7c1e" (fun _ files => Completed 0 [] (<["7c1e.bin" := []]> files)).

(** The shell cannot be started; no file is created. *)
Definition env_no_shell : Env :=
  mkEnv "7c1e" (fun _ files => Raised (mkExn OSError "[Errno 12] Cannot allocate memory") files).

Definition call (grib_type : string) (grid : option GeoGrid) (yrev : bool)
    (grep_fhr : option string) : args :=
  mkArgs "a.grb" grib_type "TMP" "850 mb" grid yrev grep_fhr false.

(** The decoder ran and left no file at all. *)
Definition env_no_file : Env :=
  mkEnv "7c1e" (fun _ files => Completed 0 [] files).

(** The call of the shell raises after the output file was created. *)
Definition env_interrupted : Env :=
  mkEnv "7c1e" (fun _ files =>
                  Raised (mkExn OSError "[Errno 4] Interrupted system call")
                         (<["7c1e.bin" := []]> files)).

(** The decoder writes six bytes: one element and a half. *)
Definition env_truncated : Env :=
  mkEnv "7c1e" (fun _ files =>
                  Completed 0 [Byte.x01; b0; b0; b0; Byte.x02; b0]
                            (<["7c1e.bin" := [Byte.x01; b0; b0; b0; Byte.x02; b0]]> files)).

End Examples.

(** ** Proof steps *)

(** Case analysis on the next test of a run whose outcome is known. *)
Ltac step :=
  match goal with
  | H : (inl _, _) = (inr _, _) |- _ => discriminate H
  | H : (inr _, _) = (inl _, _) |- _ => discriminate H
  | H : (inr _, _) = (inr _, _) |- _ => injection H as ? ?; subst
  | H : (inl _, _) = (inl _, _) |- _ => injection H as ? ?; subst
  | H : context [match ?x with _ => _ end] |- _ => destruct x eqn:?; simpl in H
  end.

Ltac unfold_run :=
  unfold read_data, bind, os_path_isfile, wgrib_call, try_except, print, emit,
    subprocess_call, subprocess_Popen, np_fromfile, np_frombuffer, os_remove, ret, raise.

(** ** Two-dimensional arrays as lists of rows *)

Section Rows.

Implicit Types (d : list float32) (m : list (list float32)) (r c i j k : nat).

Lemma length_rows_of r c d : length (rows_of r c d) = r.
Proof.
  revert d. induction r as [|r IH]; intros d; simpl; [reflexivity|].
  now rewrite IH.
Qed.

Lemma uniform_rows_of r c d : length d = r * c -> uniform c (rows_of r c d).
Proof.
  revert d. induction r as [|r IH]; intros d Hd; simpl.
  - constructor.
  - constructor.
    + rewrite length_take. lia.
    + apply IH. rewrite length_drop. lia.
Qed.

Lemma concat_rows_of r c d : length d = r * c -> concat (rows_of r c d) = d.
Proof.
  revert d. induction r as [|r IH]; intros d Hd; simpl.
  - destruct d; [reflexivity|discriminate].
  - rewrite IH; [apply take_drop|]. rewrite length_drop. lia.
Qed.

Lemma rows_of_concat c m : uniform c m -> rows_of (length m) c (concat m) = m.
Proof.
  induction 1 as [|row m Hrow _ IH]; simpl; [reflexivity|].
  rewrite take_app_length', drop_app_length' by (symmetry; exact Hrow).
  now rewrite IH.
Qed.

Lemma length_concat_uniform c m : uniform c m -> length (concat m) = length m * c.
Proof.
  induction 1 as [|row m Hrow _ IH]; simpl; [reflexivity|].
  rewrite length_app, IH, Hrow. reflexivity.
Qed.

Lemma lookup_rows_of r c d k :
  k < r -> rows_of r c d !! k = Some (take c (drop (k * c) d)).
Proof.
  revert d k. induction r as [|r IH]; intros d k Hk; [lia|].
  destruct k as [|k]; simpl.
  - reflexivity.
  - rewrite IH by lia. rewrite drop_drop. reflexivity.
Qed.

Lemma lookup_concat_uniform c m i j row :
  uniform c m -> m !! i = Some row -> j < c ->
  concat m !! (i * c + j) = row !! j.
Proof.
  intros Hm. revert i. induction Hm as [|row0 m Hrow _ IH]; intros i Hi Hj.
  - discriminate.
  - destruct i as [|i]; simpl in *.
    + injection Hi as ->. rewrite lookup_app_l by lia. reflexivity.
    + rewrite lookup_app_r by lia.
      replace (c + i * c + j - length row0) with (i * c + j) by lia.
      now apply IH.
Qed.

(** The element of the flipped array at row [i], column [j] is the element
    of the original at row [r - 1 - i], column [j]. *)
Lemma lookup_flipped r c d i j :
  length d = r * c -> i < r -> j < c ->
  np_flatten (np_flipud (rows_of r c d)) !! (i * c + j) = d !! ((r - 1 - i) * c + j).
Proof.
  intros Hd Hi Hj. unfold np_flatten, np_flipud.
  rewrite (lookup_concat_uniform c _ i j (take c (drop ((r - 1 - i) * c) d))).
  - rewrite lookup_take_lt by lia. apply lookup_drop.
  - apply Forall_reverse. now apply uniform_rows_of.
  - rewrite reverse_lookup by (rewrite length_rows_of; lia).
    rewrite length_rows_of.
    replace (r - S i) with (r - 1 - i) by lia.
    apply lookup_rows_of. lia.
  - exact Hj.
Qed.

Lemma length_flipped r c d :
  length d = r * c -> length (np_flatten (np_flipud (rows_of r c d))) = length d.
Proof.
  intros Hd. unfold np_flatten, np_flipud.
  rewrite (length_concat_uniform c).
  - rewrite length_reverse, length_rows_of. lia.
  - apply Forall_reverse. now apply uniform_rows_of.
Qed.

Lemma flipped_flipped r c d :
  length d = r * c ->
  np_flatten (np_flipud (rows_of r c (np_flatten (np_flipud (rows_of r c d))))) = d.
Proof.
  intros Hd. unfold np_flatten, np_flipud.
  assert (Hu : uniform c (reverse (rows_of r c d)))
    by (apply Forall_reverse; now apply uniform_rows_of).
  assert (Hr : r = length (reverse (rows_of r c d)))
    by now rewrite length_reverse, length_rows_of.
  rewrite Hr at 1. rewrite (rows_of_concat c _ Hu).
  rewrite reverse_involutive. now apply concat_rows_of.
Qed.

End Rows.

(** ** Running [read_grib] *)

Section Run.

Context (env : Env) (a : args).

Lemma read_grib_read s d s1 :
  read_data env a s = (inr d, s1) -> read_grib env a s = finish env a d s1.
Proof. intros H. unfold read_grib, bind. now rewrite H. Qed.

Lemma read_grib_unread s e s1 :
  read_data env a s = (inl e, s1) -> read_grib env a s = (inl e, s1).
Proof. intros H. unfold read_grib, bind. now rewrite H. Qed.

(** A successful read: the archive is there, the shell ran the command of
    the sub-format, and the data are the decoded file or stream. *)
Lemma read_data_inr s d s1 :
  read_data env a s = (inr d, s1) ->
  is_Some (fs s !! file a) /\
  exists status out fs1,
    (grib_type a = "grib1" /\
     shell env (cmd1 env a) (fs s) = Completed status out fs1 /\
     s1 = mkState fs1 (trace s ++ debug_events a (cmd1 env a) ++ [EvCall (cmd1 env a)]) /\
     exists bs, fs1 !! temp_file env = Some bs /\ d = decode_f32 bs)
    \/
    (grib_type a = "grib2" /\
     shell env (cmd2 a) (fs s) = Completed status out fs1 /\
     s1 = mkState fs1 (trace s ++ debug_events a (cmd2 a) ++ [EvPopen (cmd2 a)]) /\
     length out mod 4 = 0 /\ d = decode_f32 out).
Proof.
  unfold_run. intros H. simpl in H. repeat step.
  all: match goal with
       | Hf : negb _ = false |- _ =>
           apply negb_false_iff, bool_decide_eq_true in Hf; split; [exact Hf|]
       end.
  all: unfold cmd1, cmd2, debug_events; simpl in *.
  all: repeat match goal with
         | Hd : debug a = _ |- _ => rewrite Hd
         | Ht : String.eqb _ _ = true |- _ => apply String.eqb_eq in Ht
         | Hn : Nat.eqb _ _ = true |- _ => apply Nat.eqb_eq in Hn
         end.
  all: do 3 eexists; first
         [ left; split; [eassumption|]; split; [eassumption|];
           split; [rewrite <- ?app_assoc; reflexivity|]; eauto
         | right; split; [eassumption|]; split; [eassumption|];
           split; [rewrite <- ?app_assoc; reflexivity|]; eauto ].
Qed.

Lemma read_data_launched s d s1 :
  read_data env a s = (inr d, s1) ->
  exists l, trace s1 = trace s ++ l /\ existsb is_launch l = true.
Proof.
  intros H. apply read_data_inr in H as (_ & st & out & fs1 & H).
  destruct H as [(_ & _ & -> & _)|(_ & _ & -> & _)]; simpl; eexists; split;
    try reflexivity; rewrite existsb_app; simpl; apply orb_true_r.
Qed.

Lemma read_data_missing s :
  fs s !! file a = None -> read_data env a s = (inl NotFound, s).
Proof.
  intros H. unfold read_data, bind, os_path_isfile. rewrite H.
  rewrite bool_decide_eq_false_2; [reflexivity|]. intros [x Hx]; discriminate.
Qed.

Lemma finish_empty s1 : finish env a [] s1 = (inl RecordNotFound, s1).
Proof. reflexivity. Qed.

(** After a successful read of a non-empty array, lines 105-109 pass and
    leave the state [cleaned]. *)
Lemma finish_nonempty s d s1 :
  read_data env a s = (inr d, s1) -> d <> [] ->
  finish env a d s1 = (if yrev a then flip_y (grid a) d else ret d) (cleaned env a s1).
Proof.
  intros H Hd. apply read_data_inr in H as (_ & st & out & fs1 & H).
  unfold finish, cleaned, bind.
  destruct d as [|x d]; [congruence|]. simpl length. simpl Nat.eqb. cbv iota.
  destruct H as [(Ht & _ & -> & bs & Hbs & _)|(Ht & _ & -> & _)]; rewrite Ht; simpl.
  - unfold os_remove. simpl. rewrite Hbs. reflexivity.
  - reflexivity.
Qed.

Lemma flip_y_None d s :
  flip_y None d s =
  (inl (mkExn ValueError "The yrev parameter requires that the grid parameter be defined"), s).
Proof. reflexivity. Qed.

Lemma flip_y_fits g d s :
  length d = num_y g * num_x g ->
  flip_y (Some g) d s =
  (inr (np_flatten (np_flipud (rows_of (num_y g) (num_x g) d))), s).
Proof.
  intros H. unfold flip_y, bind, try_except, getattr_grid, np_reshape2, ret. simpl.
  apply Nat.eqb_eq in H. rewrite H. reflexivity.
Qed.

Lemma flip_y_misfit g d s :
  length d <> num_y g * num_x g ->
  exists e, flip_y (Some g) d s = (inl e, s) /\ InvalidConfiguration e.
Proof.
  intros H. unfold flip_y, bind, try_except, getattr_grid, np_reshape2, ret, raise. simpl.
  apply Nat.eqb_neq in H. rewrite H. simpl. eexists. split; reflexivity.
Qed.

End Run.

(** ** What a run adds to the trace *)

Section Emits.

Context (P : event -> Prop).

Lemma emits_ret {A} (x : A) : emits P (ret x).
Proof. intros s. exists []. split; [symmetry; apply app_nil_r|constructor]. Qed.

Lemma emits_raise {A} (e : exn) : emits P (@raise A e).
Proof. intros s. exists []. split; [symmetry; apply app_nil_r|constructor]. Qed.

Lemma emits_bind {A B} (m : M A) (k : A -> M B) :
  emits P m -> (forall x, emits P (k x)) -> emits P (bind m k).
Proof.
  intros Hm Hk s. unfold bind.
  destruct (Hm s) as (l1 & E1 & F1).
  destruct (m s) as [[e|x] s1]; simpl in *.
  - exists l1. now split.
  - destruct (Hk x s1) as (l2 & E2 & F2).
    exists (l1 ++ l2). split.
    + now rewrite E2, E1, app_assoc.
    + now apply Forall_app.
Qed.

Lemma emits_bind_ret {A B} (x : A) (k : A -> M B) :
  emits P (k x) -> emits P (bind (ret x) k).
Proof. intros H. exact H. Qed.

Lemma emits_bind_raise {A B} (e : exn) (k : A -> M B) :
  emits P (bind (raise e) k).
Proof. intros s. exists []. split; [symmetry; apply app_nil_r|constructor]. Qed.

Lemma emits_try_except {A} (body : M A) catches handler :
  emits P body -> (forall e, emits P (handler e)) -> emits P (try_except body catches handler).
Proof.
  intros Hm Hk s. unfold try_except.
  destruct (Hm s) as (l1 & E1 & F1).
  destruct (body s) as [[e|x] s1]; simpl in *.
  - destruct (catches e); simpl.
    + destruct (Hk e s1) as (l2 & E2 & F2).
      exists (l1 ++ l2). split.
      * now rewrite E2, E1, app_assoc.
      * now apply Forall_app.
    + exists l1. now split.
  - exists l1. now split.
Qed.

Lemma emits_emit ev : P ev -> emits P (emit ev).
Proof. intros H s. exists [ev]. split; [reflexivity|]. now constructor. Qed.

Lemma emits_os_path_isfile path : emits P (os_path_isfile path).
Proof. intros s. exists []. split; [symmetry; apply app_nil_r|constructor]. Qed.

Lemma emits_os_remove path : P (EvRemove path) -> emits P (os_remove path).
Proof.
  intros H s. exists [EvRemove path]. unfold os_remove.
  destruct (fs s !! path); (split; [reflexivity|now constructor]).
Qed.

Lemma emits_subprocess_call env cmd : P (EvCall cmd) -> emits P (subprocess_call env cmd).
Proof.
  intros H s. exists [EvCall cmd]. unfold subprocess_call.
  destruct (shell env cmd (fs s)); (split; [reflexivity|now constructor]).
Qed.

Lemma emits_subprocess_Popen env cmd : P (EvPopen cmd) -> emits P (subprocess_Popen env cmd).
Proof.
  intros H s. exists [EvPopen cmd]. unfold subprocess_Popen.
  destruct (shell env cmd (fs s)); (split; [reflexivity|now constructor]).
Qed.

Lemma emits_np_fromfile path : emits P (np_fromfile path).
Proof.
  intros s. exists []. unfold np_fromfile.
  destruct (fs s !! path); (split; [symmetry; apply app_nil_r|constructor]).
Qed.

Lemma emits_np_frombuffer b : emits P (np_frombuffer b).
Proof.
  unfold np_frombuffer. destruct (_ =? _)%nat; [apply emits_ret|apply emits_raise].
Qed.

Lemma emits_flip_y g d : emits P (flip_y g d).
Proof.
  unfold flip_y. apply emits_bind; [|intros; apply emits_ret].
  apply emits_try_except; [|intros; apply emits_raise].
  unfold getattr_grid, np_reshape2. destruct g as [g|].
  - do 2 apply emits_bind_ret.
    destruct (_ =? _)%nat; [apply emits_ret|apply emits_raise].
  - apply emits_bind; [apply emits_raise|intros; apply emits_bind; [apply emits_raise|]].
    intros. destruct (_ =? _)%nat; [apply emits_ret|apply emits_raise].
Qed.

End Emits.

(** The only processes a call launches are the command lines [cmd1] (by
    [subprocess.call]) and [cmd2] (by [subprocess.Popen]). *)
Lemma read_grib_emits env a :
  emits (fun ev => is_launch ev = true -> launch_with env a (grep_fhr_str a) ev)
        (read_grib env a).
Proof.
  assert (Hrm : forall path, is_launch (EvRemove path) = true ->
                             launch_with env a (grep_fhr_str a) (EvRemove path))
    by (intros ? [=]).
  unfold read_grib. apply emits_bind.
  - unfold read_data. apply emits_bind; [apply emits_os_path_isfile|intros isf].
    destruct (negb isf); [apply emits_raise|].
    unfold wgrib_call.
    destruct (String.eqb (grib_type a) "grib1").
    + apply emits_bind_ret.
      apply emits_bind.
      { destruct (debug a); [apply emits_emit; intros [=]|apply emits_ret]. }
      intros _. apply emits_bind; [|intros; apply emits_np_fromfile].
      apply emits_try_except.
      * apply emits_bind; [|intros; apply emits_ret].
        apply emits_subprocess_call. intros _. now left.
      * intros e. apply emits_bind; [|intros; apply emits_raise].
        apply emits_os_remove, Hrm.
    + destruct (String.eqb (grib_type a) "grib2").
      * apply emits_bind_ret.
        apply emits_bind.
        { destruct (debug a); [apply emits_emit; intros [=]|apply emits_ret]. }
        intros _. apply emits_bind.
        -- apply emits_try_except.
           ++ apply emits_bind; [|intros; apply emits_ret].
              apply emits_subprocess_Popen. intros _. now right.
           ++ intros e. apply emits_bind; [apply emits_ret|intros; apply emits_raise].
        -- intros [out|]; [apply emits_np_frombuffer|apply emits_raise].
      * apply emits_bind_raise.
  - intros data. unfold finish.
    destruct (_ =? _)%nat; [apply emits_raise|].
    apply emits_bind.
    + destruct (String.eqb _ _); [apply emits_os_remove, Hrm|apply emits_ret].
    + intros _. destruct (yrev a); [apply emits_flip_y|apply emits_ret].
Qed.

(** ** The launch and the temporary file *)

Lemma launched_same s : launched s s = false.
Proof. unfold launched, new_events. now rewrite drop_all. Qed.

Lemma launched_cleaned env a s d s1 :
  read_data env a s = (inr d, s1) -> launched s (cleaned env a s1) = true.
Proof.
  intros H. apply read_data_launched in H as (l & Hl & Hex).
  unfold launched, new_events, cleaned.
  destruct (String.eqb _ _); simpl; rewrite Hl.
  - rewrite <- app_assoc, drop_app_length, existsb_app, Hex. reflexivity.
  - now rewrite drop_app_length.
Qed.

(** Once a non-empty array has been read, the temporary file of a grib1
    call is gone in the state [cleaned], whatever lines 110-122 do. *)
Lemma temp_file_removed env a s d s1 :
  read_data env a s = (inr d, s1) -> d <> [] -> grib_type a = "grib1" ->
  exists r, read_grib env a s = (r, cleaned env a s1)
            /\ fs (cleaned env a s1) !! temp_file env = None.
Proof.
  intros H Hd Ht.
  rewrite (read_grib_read _ _ _ _ _ H), (finish_nonempty _ _ _ _ _ H Hd).
  assert (Hgone : fs (cleaned env a s1) !! temp_file env = None).
  { unfold cleaned. rewrite Ht. simpl. apply lookup_delete_eq. }
  destruct (yrev a).
  - destruct (grid a) as [g|].
    + destruct (decide (length d = num_y g * num_x g)) as [Hfit|Hmis].
      * rewrite flip_y_fits by exact Hfit. eauto.
      * destruct (flip_y_misfit g d (cleaned env a s1) Hmis) as (e & -> & _). eauto.
    + rewrite flip_y_None. eauto.
  - eexists. split; [reflexivity|exact Hgone].
Qed.

(** When the launch of a grib1 call fails and the temporary file is there,
    the handler removes it and raises the [DecodeError] of the cause. *)
Lemma launch_failure_with_temp_file env a s cause fs1 bs :
  is_Some (fs s !! file a) -> grib_type a = "grib1" ->
  shell env (cmd1 env a) (fs s) = Raised cause fs1 ->
  fs1 !! temp_file env = Some bs ->
  exists s', read_grib env a s = (inl (DecodeError a cause), s')
             /\ fs s' !! temp_file env = None.
Proof.
  intros Hf Ht Hsh Hbs.
  unfold read_grib, read_data, bind, os_path_isfile, wgrib_call.
  rewrite bool_decide_eq_true_2 by exact Hf. simpl.
  rewrite Ht. simpl. fold (cmd1 env a).
  unfold try_except, bind, subprocess_call, print, emit, ret.
  destruct (debug a); simpl; rewrite Hsh; simpl;
    unfold os_remove; simpl; rewrite Hbs; simpl;
    (eexists; split; [unfold DecodeError; rewrite Ht; reflexivity|simpl; apply lookup_delete_eq]).
Qed.

(** ** The claims *)

Import Examples.

(** C1 (the code does otherwise).  The claim: a grib1 call whose decoder
    left a readable temporary file deletes that file before it returns or
    raises, also when the payload is empty.  On an empty payload line 106
    raises before line 109 is reached: the call fails with [RecordNotFound],
    the file is still there and no removal was attempted. *)
Theorem C1_temp_file_left_when_no_record :
  exists s',
    read_grib env_no_record (call "grib1" None false None) s0 = (inl RecordNotFound, s')
    /\ fs s' !! temp_file env_no_record = Some []
    /\ Forall (fun ev => ev <> EvRemove (temp_file env_no_record)) (trace s').
Proof.
  exists (snd (read_grib env_no_record (call "grib1" None false None) s0)).
  split; [vm_compute; reflexivity|].
  split; [vm_compute; reflexivity|].
  vm_compute. repeat constructor. discriminate.
Qed.

(** C2 (as stated, refuted).  The claim: with row reversal requested and no
    grid, the call fails with [InvalidConfiguration] before any process is
    launched.  Here such a call fails with it only after the decoder ran. *)
Lemma C2_counterexample :
  yrev (call "grib1" None true None) = true
  /\ grid (call "grib1" None true None) = None
  /\ ~ (exists e s',
          read_grib env_found (call "grib1" None true None) s0 = (inl e, s')
          /\ InvalidConfiguration e
          /\ launched s0 s' = false).
Proof.
  split; [reflexivity|]. split; [reflexivity|].
  intros (e & s' & H & _ & Hl).
  assert (Hs : s' = snd (read_grib env_found (call "grib1" None true None) s0))
    by now rewrite H.
  rewrite Hs in Hl. vm_compute in Hl. discriminate Hl.
Qed.

(** C2 (amended).  With row reversal requested and no grid, a call that has
    read a non-empty array fails with [InvalidConfiguration]; the failure
    comes from the reversal step, after the decoder process was launched
    (and after the temporary file of a grib1 call was removed). *)
Theorem C2_yrev_without_grid env a s d s1 :
  read_data env a s = (inr d, s1) -> d <> [] ->
  yrev a = true -> grid a = None ->
  exists e,
    read_grib env a s = (inl e, cleaned env a s1)
    /\ InvalidConfiguration e
    /\ launched s (cleaned env a s1) = true.
Proof.
  intros H Hd Hy Hg.
  rewrite (read_grib_read _ _ _ _ _ H), (finish_nonempty _ _ _ _ _ H Hd), Hy, Hg.
  rewrite flip_y_None. eexists. split; [reflexivity|]. split; [reflexivity|].
  now apply (launched_cleaned env a s d).
Qed.

Lemma C2_witness :
  exists e,
    read_grib env_found (call "grib2" None true None) s0
    = (inl e, cleaned env_found (call "grib2" None true None)
                (snd (read_data env_found (call "grib2" None true None) s0)))
    /\ InvalidConfiguration e
    /\ launched s0 (cleaned env_found (call "grib2" None true None)
                      (snd (read_data env_found (call "grib2" None true None) s0))) = true.
Proof.
  apply (C2_yrev_without_grid env_found (call "grib2" None true None) s0 [e1; e2; e3; e4]).
  - vm_compute. reflexivity.
  - discriminate.
  - reflexivity.
  - reflexivity.
Defined.

(** C3.  With row reversal requested for a grid of [num_y] rows and [num_x]
    columns, and a non-empty array of exactly [num_y * num_x] elements read,
    the call returns an array of the same length whose element at
    [i * num_x + j] is the read array's element at
    [(num_y - 1 - i) * num_x + j], for every row [i] and column [j]. *)
Theorem C3_rows_reversed env a s d s1 g :
  read_data env a s = (inr d, s1) -> d <> [] ->
  yrev a = true -> grid a = Some g ->
  length d = num_y g * num_x g ->
  exists out,
    read_grib env a s = (inr out, cleaned env a s1)
    /\ length out = length d
    /\ forall i j, i < num_y g -> j < num_x g ->
         out !! (i * num_x g + j) = d !! ((num_y g - 1 - i) * num_x g + j).
Proof.
  intros H Hd Hy Hg Hlen.
  rewrite (read_grib_read _ _ _ _ _ H), (finish_nonempty _ _ _ _ _ H Hd), Hy, Hg.
  rewrite flip_y_fits by exact Hlen.
  eexists. split; [reflexivity|]. split.
  - now apply length_flipped.
  - intros i j Hi Hj. now apply lookup_flipped.
Qed.

Lemma C3_witness :
  exists out,
    read_grib env_found (call "grib1" (Some (mkGeoGrid 2 2)) true None) s0
    = (inr out, cleaned env_found (call "grib1" (Some (mkGeoGrid 2 2)) true None)
                  (snd (read_data env_found (call "grib1" (Some (mkGeoGrid 2 2)) true None) s0)))
    /\ length out = length [e1; e2; e3; e4]
    /\ forall i j, i < 2 -> j < 2 ->
         out !! (i * 2 + j) = [e1; e2; e3; e4] !! ((2 - 1 - i) * 2 + j).
Proof.
  apply (C3_rows_reversed env_found (call "grib1" (Some (mkGeoGrid 2 2)) true None)
           s0 [e1; e2; e3; e4] _ (mkGeoGrid 2 2)).
  - vm_compute. reflexivity.
  - discriminate.
  - reflexivity.
  - reflexivity.
  - reflexivity.
Defined.

(** C4 (as stated, refuted).  The claim: with row reversal requested and a
    grid supplied, a decoded element count other than rows times columns
    makes the call fail with [InvalidConfiguration].  Here the decoder yields
    no element for a 2 x 2 grid and the call fails with [RecordNotFound]. *)
Lemma C4_counterexample :
  exists s1,
    read_data env_no_record (call "grib1" (Some (mkGeoGrid 2 2)) true None) s0 = (inr [], s1)
    /\ yrev (call "grib1" (Some (mkGeoGrid 2 2)) true None) = true
    /\ grid (call "grib1" (Some (mkGeoGrid 2 2)) true None) = Some (mkGeoGrid 2 2)
    /\ length (@nil float32) <> 2 * 2
    /\ ~ (exists e s',
            read_grib env_no_record (call "grib1" (Some (mkGeoGrid 2 2)) true None) s0
            = (inl e, s')
            /\ InvalidConfiguration e).
Proof.
  exists (snd (read_data env_no_record (call "grib1" (Some (mkGeoGrid 2 2)) true None) s0)).
  split; [vm_compute; reflexivity|].
  do 2 (split; [reflexivity|]).
  split; [simpl; lia|].
  intros (e & s' & H & He).
  assert (Hr : fst (read_grib env_no_record
                      (call "grib1" (Some (mkGeoGrid 2 2)) true None) s0)
               = inl RecordNotFound) by (vm_compute; reflexivity).
  rewrite H in Hr. simpl in Hr. injection Hr as ->.
  discriminate He.
Qed.

(** C4 (amended).  With row reversal requested and a grid supplied, a
    non-empty array read whose length is not [num_y * num_x] makes the call
    fail with [InvalidConfiguration]. *)
Theorem C4_shape_mismatch env a s d s1 g :
  read_data env a s = (inr d, s1) -> d <> [] ->
  yrev a = true -> grid a = Some g ->
  length d <> num_y g * num_x g ->
  exists e, read_grib env a s = (inl e, cleaned env a s1) /\ InvalidConfiguration e.
Proof.
  intros H Hd Hy Hg Hlen.
  rewrite (read_grib_read _ _ _ _ _ H), (finish_nonempty _ _ _ _ _ H Hd), Hy, Hg.
  exact (flip_y_misfit g d (cleaned env a s1) Hlen).
Qed.

Lemma C4_witness :
  exists e,
    read_grib env_found (call "grib2" (Some (mkGeoGrid 3 2)) true None) s0
    = (inl e, cleaned env_found (call "grib2" (Some (mkGeoGrid 3 2)) true None)
                (snd (read_data env_found (call "grib2" (Some (mkGeoGrid 3 2)) true None) s0)))
    /\ InvalidConfiguration e.
Proof.
  apply (C4_shape_mismatch env_found (call "grib2" (Some (mkGeoGrid 3 2)) true None)
           s0 [e1; e2; e3; e4] _ (mkGeoGrid 3 2)).
  - vm_compute. reflexivity.
  - discriminate.
  - reflexivity.
  - reflexivity.
  - simpl. lia.
Defined.

(** A returned array is never empty. *)
Lemma read_grib_inr_nonempty env a s out s' :
  read_grib env a s = (inr out, s') -> out <> [].
Proof.
  intros H. unfold read_grib, bind in H.
  destruct (read_data env a s) as [[e|d] s1] eqn:Hread; [discriminate|].
  destruct d as [|x d]; [discriminate|].
  rewrite (finish_nonempty env a s (x :: d) s1 Hread) in H by discriminate.
  destruct (yrev a); [|injection H as <- _; discriminate].
  destruct (grid a) as [g|]; [|rewrite flip_y_None in H; discriminate].
  destruct (decide (length (x :: d) = num_y g * num_x g)) as [Hfit|Hmis].
  - rewrite flip_y_fits in H by exact Hfit. injection H as <- _.
    intros Hnil. apply (f_equal length) in Hnil.
    rewrite length_flipped in Hnil by exact Hfit. discriminate.
  - destruct (flip_y_misfit g (x :: d) (cleaned env a s1) Hmis) as (e & He & _).
    rewrite He in H. discriminate.
Qed.

(** C5.  When the decoder ran and the array read has no element, in either
    sub-format, the call fails with [RecordNotFound]; that failure is not the
    [DecodeError] of any failed launch; and no call returns an empty array. *)
Theorem C5_no_record env a s s1 :
  read_data env a s = (inr [], s1) ->
  read_grib env a s = (inl RecordNotFound, s1)
  /\ (forall a' cause, RecordNotFound <> DecodeError a' cause)
  /\ (forall env' a' s' out s'', read_grib env' a' s' = (inr out, s'') -> out <> []).
Proof.
  intros H. split; [|split].
  - rewrite (read_grib_read _ _ _ _ _ H). apply finish_empty.
  - intros a' cause. unfold RecordNotFound, DecodeError. simpl. intros [=].
  - intros env' a' s' out s''. apply read_grib_inr_nonempty.
Qed.

Lemma C5_witness :
  read_grib env_no_record (call "grib2" None false None) s0
  = (inl RecordNotFound, snd (read_data env_no_record (call "grib2" None false None) s0))
  /\ (forall a' cause, RecordNotFound <> DecodeError a' cause)
  /\ (forall env' a' s' out s'', read_grib env' a' s' = (inr out, s'') -> out <> []).
Proof.
  apply (C5_no_record env_no_record (call "grib2" None false None) s0).
  vm_compute. reflexivity.
Defined.

(** C6.  When the archive path names no file, the call fails with
    [NotFound] in the state it started from, whatever the other arguments:
    no process was launched. *)
Theorem C6_missing_archive env a s :
  fs s !! file a = None ->
  read_grib env a s = (inl NotFound, s)
  /\ launched s (snd (read_grib env a s)) = false.
Proof.
  intros H.
  assert (Hr : read_grib env a s = (inl NotFound, s))
    by (apply read_grib_unread, read_data_missing, H).
  split; [exact Hr|]. rewrite Hr. apply launched_same.
Qed.

Lemma C6_witness :
  read_grib env_found (call "grib2" None false None) s_bare = (inl NotFound, s_bare)
  /\ launched s_bare (snd (read_grib env_found (call "grib2" None false None) s_bare)) = false.
Proof.
  apply (C6_missing_archive env_found (call "grib2" None false None) s_bare).
  vm_compute. reflexivity.
Defined.

(** C7.  On an array of exactly [num_y * num_x] elements, the reversal of
    lines 110-120 succeeds, and applied to its own result it gives back the
    array it started from. *)
Theorem C7_reversal_involutive g d s :
  length d = num_y g * num_x g ->
  exists d',
    flip_y (Some g) d s = (inr d', s)
    /\ flip_y (Some g) d' s = (inr d, s).
Proof.
  intros Hlen. eexists. split; [now apply flip_y_fits|].
  rewrite flip_y_fits by (now rewrite length_flipped).
  now rewrite flipped_flipped.
Qed.

Lemma C7_witness :
  exists d',
    flip_y (Some (mkGeoGrid 2 2)) [e1; e2; e3; e4] s0 = (inr d', s0)
    /\ flip_y (Some (mkGeoGrid 2 2)) d' s0 = (inr [e1; e2; e3; e4], s0).
Proof.
  apply (C7_reversal_involutive (mkGeoGrid 2 2) [e1; e2; e3; e4] s0).
  reflexivity.
Defined.

(** C8 (the code does otherwise).  The claim: when the launch of a grib1
    call fails, the temporary file is removed if it was created, its absence
    is no failure of its own, and the call fails with the [DecodeError] of
    the cause.  Here the shell cannot be started and no temporary file
    exists: [os.remove] on line 98 raises, and the call fails with that
    [FileNotFoundError], which is no [DecodeError]. *)
Theorem C8_launch_failure_without_temp_file :
  exists s',
    read_grib env_no_shell (call "grib1" None false None) s0
    = (inl (no_such_file (temp_file env_no_shell)), s')
    /\ exn_cls (no_such_file (temp_file env_no_shell)) = FileNotFoundError
    /\ forall a cause, no_such_file (temp_file env_no_shell) <> DecodeError a cause.
Proof.
  exists (snd (read_grib env_no_shell (call "grib1" None false None) s0)).
  split; [vm_compute; reflexivity|]. split; [reflexivity|].
  intros a cause [=].
Qed.

(** C9 (as stated, refuted).  The claim: the command line carries the
    caller's forecast-hour pattern whenever one is given, and the wildcard
    only when none is.  Here the caller gives the empty pattern and the
    command line launched carries the wildcard. *)
Lemma C9_counterexample :
  grep_fhr (call "grib1" None false (Some "")) = Some ""
  /\ ~ Forall (fun ev => is_launch ev = true ->
                 launch_with env_found (call "grib1" None false (Some ""))
                   (pattern_as_specified (call "grib1" None false (Some ""))) ev)
         (new_events s0 (snd (read_grib env_found (call "grib1" None false (Some "")) s0))).
Proof.
  split; [reflexivity|]. intros HF.
  rewrite Forall_forall in HF.
  specialize (HF (EvCall (cmd1 env_found (call "grib1" None false (Some ""))))).
  destruct HF as [H|H].
  - vm_compute. left.
  - reflexivity.
  - vm_compute in H. discriminate H.
  - discriminate H.
Qed.

(** C9 (amended).  Every process a call launches runs the command line of
    its sub-format with, as forecast-hour pattern, the caller's pattern
    verbatim when a non-empty one is given, and the wildcard when the
    pattern is absent or empty. *)
Theorem C9_forecast_hour_pattern env a s :
  Forall (fun ev => is_launch ev = true ->
            (forall p, grep_fhr a = Some p -> p <> "" -> launch_with env a p ev)
            /\ (grep_fhr a = None \/ grep_fhr a = Some "" -> launch_with env a ".*" ev))
    (new_events s (snd (read_grib env a s))).
Proof.
  destruct (read_grib_emits env a s) as (l & El & Fl).
  unfold new_events. rewrite El, drop_app_length.
  eapply Forall_impl; [exact Fl|].
  intros ev Hev Hl. specialize (Hev Hl). split.
  - intros p Hp Hne.
    replace p with (grep_fhr_str a); [exact Hev|].
    unfold grep_fhr_str. rewrite Hp. destruct p; [contradiction|reflexivity].
  - intros Hp.
    replace ".*" with (grep_fhr_str a); [exact Hev|].
    unfold grep_fhr_str. destruct Hp as [-> | ->]; reflexivity.
Qed.

(** A launch with a pattern of the caller: the only event of the call. *)
Example launch_with_caller_pattern :
  new_events s0 (snd (read_grib env_found (call "grib2" None false (Some ":24 hour fcst:")) s0))
  = [EvPopen (grib2_format "a.grb" "TMP" "850 mb" ":24 hour fcst:")].
Proof. vm_compute. reflexivity. Qed.

(** C10.  Without row reversal the grid argument has no influence on the
    call; a non-empty array read is returned as it is, also when no grid is
    given or the grid has another size; and whatever is returned is the
    array read. *)
Theorem C10_no_reversal env a s :
  yrev a = false ->
  (forall g, read_grib env (with_grid g a) s = read_grib env a s)
  /\ (forall d s1, read_data env a s = (inr d, s1) -> d <> [] ->
        read_grib env a s = (inr d, cleaned env a s1))
  /\ (forall out s', read_grib env a s = (inr out, s') ->
        exists s1, read_data env a s = (inr out, s1)).
Proof.
  intros Hy. split; [|split].
  - intros g. destruct a; simpl in *; subst. reflexivity.
  - intros d s1 H Hd.
    rewrite (read_grib_read _ _ _ _ _ H), (finish_nonempty _ _ _ _ _ H Hd), Hy.
    reflexivity.
  - intros out s' H. unfold read_grib, bind in H.
    destruct (read_data env a s) as [[e|d] s1] eqn:Hread; [discriminate|].
    destruct d as [|x d]; [discriminate|].
    rewrite (finish_nonempty env a s (x :: d) s1 Hread) in H by discriminate.
    rewrite Hy in H. injection H as <- _. now exists s1.
Qed.

Lemma C10_witness :
  (forall g, read_grib env_found (with_grid g (call "grib2" None false None)) s0
             = read_grib env_found (call "grib2" None false None) s0)
  /\ (forall d s1, read_data env_found (call "grib2" None false None) s0 = (inr d, s1) ->
        d <> [] ->
        read_grib env_found (call "grib2" None false None) s0
        = (inr d, cleaned env_found (call "grib2" None false None) s1))
  /\ (forall out s', read_grib env_found (call "grib2" None false None) s0 = (inr out, s') ->
        exists s1, read_data env_found (call "grib2" None false None) s0 = (inr out, s1)).
Proof.
  apply (C10_no_reversal env_found (call "grib2" None false None) s0).
  reflexivity.
Defined.

(** ** From the world to the outcome *)

Lemma length_decode_f32 bs : length (decode_f32 bs) = length bs / 4.
Proof.
  assert (H : forall n bs, length bs < n -> length (decode_f32 bs) = length bs / 4).
  { clear bs. induction n as [|n IH]; intros bs Hn; [lia|].
    destruct bs as [|b1 [|b2 [|b3 [|b4 rest]]]]; try reflexivity.
    cbn [decode_f32 length]. rewrite IH by (simpl in Hn; lia).
    change (S (S (S (S (length rest))))) with (1 * 4 + length rest).
    rewrite Nat.div_add_l by lia. reflexivity. }
  apply (H (S (length bs))). lia.
Qed.

Lemma decode_f32_nonempty bs : 4 <= length bs -> decode_f32 bs <> [].
Proof.
  intros H Hnil. apply (f_equal length) in Hnil.
  rewrite length_decode_f32 in Hnil. cbn [length] in Hnil.
  assert (1 <= length bs / 4) by (apply Nat.div_le_lower_bound; lia). lia.
Qed.

Section Forward.

Context (env : Env) (a : args) (s : state).

Hypothesis Hfile : is_Some (fs s !! file a).

Lemma read_data_unsupported :
  grib_type a <> "grib1" -> grib_type a <> "grib2" ->
  read_data env a s = (inl UnsupportedFormat, s).
Proof.
  intros H1 H2. apply String.eqb_neq in H1, H2.
  unfold read_data, bind, os_path_isfile, wgrib_call.
  rewrite bool_decide_eq_true_2 by exact Hfile. simpl.
  rewrite H1, H2. reflexivity.
Qed.

Lemma read_data_grib1_ran status out fs1 :
  grib_type a = "grib1" ->
  shell env (cmd1 env a) (fs s) = Completed status out fs1 ->
  read_data env a s
  = np_fromfile (temp_file env)
      (mkState fs1 (trace s ++ debug_events a (cmd1 env a) ++ [EvCall (cmd1 env a)])).
Proof.
  intros Ht Hsh.
  unfold read_data, bind, os_path_isfile, wgrib_call.
  rewrite bool_decide_eq_true_2 by exact Hfile. simpl.
  rewrite Ht. simpl. fold (cmd1 env a).
  unfold try_except, bind, subprocess_call, print, emit, ret, debug_events.
  destruct (debug a); simpl; rewrite Hsh; simpl; rewrite <- ?app_assoc; reflexivity.
Qed.

Lemma read_data_grib2_ran status out fs1 :
  grib_type a = "grib2" ->
  shell env (cmd2 a) (fs s) = Completed status out fs1 ->
  read_data env a s
  = np_frombuffer out
      (mkState fs1 (trace s ++ debug_events a (cmd2 a) ++ [EvPopen (cmd2 a)])).
Proof.
  intros Ht Hsh.
  unfold read_data, bind, os_path_isfile, wgrib_call.
  rewrite bool_decide_eq_true_2 by exact Hfile. simpl.
  rewrite Ht. simpl. fold (cmd2 a).
  unfold try_except, bind, subprocess_Popen, print, emit, ret, debug_events.
  destruct (debug a); simpl; rewrite Hsh; simpl; rewrite <- ?app_assoc; reflexivity.
Qed.

Lemma read_data_grib2_not_launched cause fs1 :
  grib_type a = "grib2" ->
  shell env (cmd2 a) (fs s) = Raised cause fs1 ->
  read_data env a s
  = (inl (DecodeError a cause),
     mkState fs1 (trace s ++ debug_events a (cmd2 a) ++ [EvPopen (cmd2 a)])).
Proof.
  intros Ht Hsh.
  unfold read_data, bind, os_path_isfile, wgrib_call.
  rewrite bool_decide_eq_true_2 by exact Hfile. simpl.
  unfold DecodeError. rewrite Ht. simpl. fold (cmd2 a).
  unfold try_except, bind, subprocess_Popen, print, emit, ret, raise, debug_events.
  destruct (debug a); simpl; rewrite Hsh; simpl; rewrite <- ?app_assoc; reflexivity.
Qed.

End Forward.

Lemma new_events_app s l fs1 : new_events s (mkState fs1 (trace s ++ l)) = l.
Proof. unfold new_events. simpl. apply drop_app_length. Qed.

(** ** Further properties of [read_grib] *)

(** X1.  With the archive in place and a sub-format that is neither grib1
    nor grib2, the call fails with [UnsupportedFormat] in the state it
    started from: nothing is printed, launched or removed. *)
Theorem X1_unsupported_format env a s :
  is_Some (fs s !! file a) ->
  grib_type a <> "grib1" -> grib_type a <> "grib2" ->
  read_grib env a s = (inl UnsupportedFormat, s)
  /\ new_events s (snd (read_grib env a s)) = [].
Proof.
  intros Hf H1 H2.
  assert (Hr : read_grib env a s = (inl UnsupportedFormat, s))
    by (apply read_grib_unread, read_data_unsupported; assumption).
  split; [exact Hr|]. rewrite Hr. unfold new_events. simpl. apply drop_all.
Qed.

Lemma X1_witness :
  read_grib env_found (call "netcdf" None false None) s0 = (inl UnsupportedFormat, s0)
  /\ new_events s0 (snd (read_grib env_found (call "netcdf" None false None) s0)) = [].
Proof.
  apply (X1_unsupported_format env_found (call "netcdf" None false None) s0).
  - vm_compute. eexists. reflexivity.
  - discriminate.
  - discriminate.
Defined.

(** X2.  When the launch of a grib2 call raises, the call fails with the
    [DecodeError] of the cause; it has printed the command line if asked
    to, attempted the launch, and removed nothing: the file system is the
    one the shell left. *)
Theorem X2_grib2_launch_failure env a s cause fs1 :
  is_Some (fs s !! file a) -> grib_type a = "grib2" ->
  shell env (cmd2 a) (fs s) = Raised cause fs1 ->
  exists s',
    read_grib env a s = (inl (DecodeError a cause), s')
    /\ fs s' = fs1
    /\ new_events s s' = debug_events a (cmd2 a) ++ [EvPopen (cmd2 a)].
Proof.
  intros Hf Ht Hsh. eexists. split; [|split].
  - apply read_grib_unread.
    exact (read_data_grib2_not_launched env a s Hf cause fs1 Ht Hsh).
  - reflexivity.
  - apply new_events_app.
Qed.

Lemma X2_witness :
  exists s',
    read_grib env_no_shell (call "grib2" None false None) s0
    = (inl (DecodeError (call "grib2" None false None)
              (mkExn OSError "[Errno 12] Cannot allocate memory")), s')
    /\ fs s' = fs s0
    /\ new_events s0 s'
       = debug_events (call "grib2" None false None) (cmd2 (call "grib2" None false None))
         ++ [EvPopen (cmd2 (call "grib2" None false None))].
Proof.
  apply (X2_grib2_launch_failure env_no_shell (call "grib2" None false None) s0).
  - vm_compute. eexists. reflexivity.
  - reflexivity.
  - reflexivity.
Defined.

(** X3.  When the launch of a grib1 call raises and the temporary file
    exists, the handler removes the file and the call fails with the
    [DecodeError] of the cause. *)
Theorem X3_grib1_launch_failure_cleans_up env a s cause fs1 bs :
  is_Some (fs s !! file a) -> grib_type a = "grib1" ->
  shell env (cmd1 env a) (fs s) = Raised cause fs1 ->
  fs1 !! temp_file env = Some bs ->
  exists s',
    read_grib env a s = (inl (DecodeError a cause), s')
    /\ fs s' = delete (temp_file env) fs1
    /\ new_events s s'
       = debug_events a (cmd1 env a) ++ [EvCall (cmd1 env a); EvRemove (temp_file env)].
Proof.
  intros Hf Ht Hsh Hbs.
  unfold read_grib, read_data, bind, os_path_isfile, wgrib_call.
  rewrite bool_decide_eq_true_2 by exact Hf. simpl.
  unfold DecodeError. rewrite Ht. simpl. fold (cmd1 env a).
  unfold try_except, bind, subprocess_call, print, emit, ret, debug_events.
  destruct (debug a); simpl; rewrite Hsh; simpl;
    unfold os_remove; simpl; rewrite Hbs; simpl;
    (eexists; split; [reflexivity|]; split; [reflexivity|]);
    rewrite <- !app_assoc; apply new_events_app.
Qed.

Lemma X3_witness :
  exists s',
    read_grib env_interrupted (call "grib1" None false None) s0
    = (inl (DecodeError (call "grib1" None false None)
              (mkExn OSError "[Errno 4] Interrupted system call")), s')
    /\ fs s' = delete (temp_file env_interrupted) (<["7c1e.bin" := []]> (fs s0))
    /\ new_events s0 s'
       = debug_events (call "grib1" None false None)
           (cmd1 env_interrupted (call "grib1" None false None))
         ++ [EvCall (cmd1 env_interrupted (call "grib1" None false None));
             EvRemove (temp_file env_interrupted)].
Proof.
  apply (X3_grib1_launch_failure_cleans_up env_interrupted
           (call "grib1" None false None) s0 _ _ []).
  - vm_compute. eexists. reflexivity.
  - reflexivity.
  - reflexivity.
  - vm_compute. reflexivity.
Defined.

(** X4.  Once a grib1 call has read a non-empty array, the temporary file
    is gone when the call ends, whether it returns the array or the
    reversal fails. *)
Theorem X4_temp_file_gone_after_read env a s d s1 :
  read_data env a s = (inr d, s1) -> d <> [] -> grib_type a = "grib1" ->
  exists r s',
    read_grib env a s = (r, s')
    /\ fs s' = delete (temp_file env) (fs s1)
    /\ fs s' !! temp_file env = None.
Proof.
  intros H Hd Ht.
  destruct (temp_file_removed env a s d s1 H Hd Ht) as (r & Hr & Hgone).
  exists r, (cleaned env a s1). split; [exact Hr|]. split; [|exact Hgone].
  unfold cleaned. rewrite Ht. reflexivity.
Qed.

Lemma X4_witness :
  exists r s',
    read_grib env_found (call "grib1" (Some (mkGeoGrid 3 2)) true None) s0 = (r, s')
    /\ fs s' = delete (temp_file env_found)
                 (fs (snd (read_data env_found (call "grib1" (Some (mkGeoGrid 3 2)) true None) s0)))
    /\ fs s' !! temp_file env_found = None.
Proof.
  apply (X4_temp_file_gone_after_read env_found
           (call "grib1" (Some (mkGeoGrid 3 2)) true None) s0 [e1; e2; e3; e4]).
  - vm_compute. reflexivity.
  - discriminate.
  - reflexivity.
Defined.

(** X5.  When the decoder of a grib1 call ran and left no temporary file,
    the call fails with the [FileNotFoundError] of [np.fromfile]: it is
    neither [RecordNotFound] nor a [ReadingError] at all. *)
Theorem X5_grib1_no_temp_file env a s status out fs1 :
  is_Some (fs s !! file a) -> grib_type a = "grib1" ->
  shell env (cmd1 env a) (fs s) = Completed status out fs1 ->
  fs1 !! temp_file env = None ->
  exists s',
    read_grib env a s = (inl (no_such_file (temp_file env)), s')
    /\ exn_cls (no_such_file (temp_file env)) = FileNotFoundError
    /\ fs s' = fs1.
Proof.
  intros Hf Ht Hsh Hnone. eexists. split; [|split].
  - apply read_grib_unread.
    rewrite (read_data_grib1_ran env a s Hf status out fs1 Ht Hsh).
    unfold np_fromfile. simpl. rewrite Hnone. reflexivity.
  - reflexivity.
  - reflexivity.
Qed.

Lemma X5_witness :
  exists s',
    read_grib env_no_file (call "grib1" None false None) s0
    = (inl (no_such_file (temp_file env_no_file)), s')
    /\ exn_cls (no_such_file (temp_file env_no_file)) = FileNotFoundError
    /\ fs s' = fs s0.
Proof.
  apply (X5_grib1_no_temp_file env_no_file (call "grib1" None false None) s0 0%Z []).
  - vm_compute. eexists. reflexivity.
  - reflexivity.
  - reflexivity.
  - vm_compute. reflexivity.
Defined.

(** X6.  When the decoder of a grib2 call writes a number of bytes that is
    no multiple of four, the call fails with the [ValueError] of
    [np.frombuffer], with or without row reversal. *)
Theorem X6_grib2_partial_element env a s status out fs1 :
  is_Some (fs s !! file a) -> grib_type a = "grib2" ->
  shell env (cmd2 a) (fs s) = Completed status out fs1 ->
  length out mod 4 <> 0 ->
  exists s',
    read_grib env a s
    = (inl (mkExn ValueError "buffer size must be a multiple of element size"), s')
    /\ fs s' = fs1.
Proof.
  intros Hf Ht Hsh Hmod. eexists. split.
  - apply read_grib_unread.
    rewrite (read_data_grib2_ran env a s Hf status out fs1 Ht Hsh).
    unfold np_frombuffer. apply Nat.eqb_neq in Hmod. rewrite Hmod. reflexivity.
  - reflexivity.
Qed.

Lemma X6_witness :
  exists s',
    read_grib env_truncated (call "grib2" None false None) s0
    = (inl (mkExn ValueError "buffer size must be a multiple of element size"), s')
    /\ fs s' = <["7c1e.bin" := [Byte.x01; b0; b0; b0; Byte.x02; b0]]> (fs s0).
Proof.
  apply (X6_grib2_partial_element env_truncated (call "grib2" None false None) s0
           0%Z [Byte.x01; b0; b0; b0; Byte.x02; b0]).
  - vm_compute. eexists. reflexivity.
  - reflexivity.
  - reflexivity.
  - vm_compute. discriminate.
Defined.

(** X7.  A grib1 call without row reversal whose decoder left a temporary
    file of at least four bytes returns the file's whole groups of four
    bytes, [length / 4] elements: bytes after the last whole group are
    dropped.  The temporary file is removed. *)
Theorem X7_grib1_returns_whole_elements env a s status out fs1 bs :
  is_Some (fs s !! file a) -> grib_type a = "grib1" ->
  shell env (cmd1 env a) (fs s) = Completed status out fs1 ->
  fs1 !! temp_file env = Some bs ->
  4 <= length bs -> yrev a = false ->
  exists s',
    read_grib env a s = (inr (decode_f32 bs), s')
    /\ length (decode_f32 bs) = length bs / 4
    /\ fs s' = delete (temp_file env) fs1.
Proof.
  intros Hf Ht Hsh Hbs Hlen Hy.
  assert (Hread : read_data env a s
                  = (inr (decode_f32 bs),
                     mkState fs1 (trace s ++ debug_events a (cmd1 env a)
                                    ++ [EvCall (cmd1 env a)]))).
  { rewrite (read_data_grib1_ran env a s Hf status out fs1 Ht Hsh).
    unfold np_fromfile. simpl. rewrite Hbs. reflexivity. }
  eexists. split; [|split].
  - rewrite (read_grib_read _ _ _ _ _ Hread).
    rewrite (finish_nonempty _ _ _ _ _ Hread (decode_f32_nonempty bs Hlen)), Hy.
    reflexivity.
  - apply length_decode_f32.
  - unfold cleaned. rewrite Ht. reflexivity.
Qed.

Lemma X7_witness :
  exists s',
    read_grib env_truncated (call "grib1" None false None) s0
    = (inr (decode_f32 [Byte.x01; b0; b0; b0; Byte.x02; b0]), s')
    /\ length (decode_f32 [Byte.x01; b0; b0; b0; Byte.x02; b0])
       = length [Byte.x01; b0; b0; b0; Byte.x02; b0] / 4
    /\ fs s' = delete (temp_file env_truncated)
                 (<["7c1e.bin" := [Byte.x01; b0; b0; b0; Byte.x02; b0]]> (fs s0)).
Proof.
  apply (X7_grib1_returns_whole_elements env_truncated (call "grib1" None false None) s0
           0%Z [Byte.x01; b0; b0; b0; Byte.x02; b0]).
  - vm_compute. eexists. reflexivity.
  - reflexivity.
  - reflexivity.
  - vm_compute. reflexivity.
  - simpl. lia.
  - reflexivity.
Defined.

(** X8.  A grib2 call without row reversal whose decoder wrote a non-empty
    stream of whole elements returns them all, a quarter as many elements
    as bytes, and leaves the file system as the shell left it. *)
Theorem X8_grib2_returns_stream env a s status out fs1 :
  is_Some (fs s !! file a) -> grib_type a = "grib2" ->
  shell env (cmd2 a) (fs s) = Completed status out fs1 ->
  length out mod 4 = 0 -> out <> [] -> yrev a = false ->
  exists s',
    read_grib env a s = (inr (decode_f32 out), s')
    /\ 4 * length (decode_f32 out) = length out
    /\ fs s' = fs1.
Proof.
  intros Hf Ht Hsh Hmod Hne Hy.
  assert (Hlen : 4 <= length out).
  { destruct out as [|b1 [|b2 [|b3 [|b4 rest]]]];
      [congruence|discriminate Hmod ..|simpl; lia]. }
  assert (Hread : read_data env a s
                  = (inr (decode_f32 out),
                     mkState fs1 (trace s ++ debug_events a (cmd2 a) ++ [EvPopen (cmd2 a)]))).
  { rewrite (read_data_grib2_ran env a s Hf status out fs1 Ht Hsh).
    unfold np_frombuffer. apply Nat.eqb_eq in Hmod. rewrite Hmod. reflexivity. }
  eexists. split; [|split].
  - rewrite (read_grib_read _ _ _ _ _ Hread).
    rewrite (finish_nonempty _ _ _ _ _ Hread (decode_f32_nonempty out Hlen)), Hy.
    reflexivity.
  - rewrite length_decode_f32.
    pose proof (Nat.div_mod_eq (length out) 4). lia.
  - unfold cleaned.
    assert (Hn : String.eqb (grib_type a) "grib1" = false) by now rewrite Ht.
    rewrite Hn. reflexivity.
Qed.

Lemma X8_witness :
  exists s',
    read_grib env_found (call "grib2" None false None) s0 = (inr (decode_f32 payload), s')
    /\ 4 * length (decode_f32 payload) = length payload
    /\ fs s' = <["7c1e.bin" := payload]> (fs s0).
Proof.
  apply (X8_grib2_returns_stream env_found (call "grib2" None false None) s0 0%Z payload).
  - vm_compute. eexists. reflexivity.
  - reflexivity.
  - reflexivity.
  - reflexivity.
  - discriminate.
  - reflexivity.
Defined.

(** The reversal step leaves the state alone. *)
Lemma flip_y_state g d s : snd (flip_y g d s) = s.
Proof.
  destruct g as [g|]; [|reflexivity].
  destruct (decide (length d = num_y g * num_x g)) as [Hfit|Hmis].
  - now rewrite flip_y_fits.
  - destruct (flip_y_misfit g d s Hmis) as (e & -> & _). reflexivity.
Qed.

(** The state a call ends in, from the outcome of the read. *)
Lemma read_grib_state env a s d s1 :
  read_data env a s = (inr d, s1) ->
  snd (read_grib env a s) = if (length d =? 0)%nat then s1 else cleaned env a s1.
Proof.
  intros H. rewrite (read_grib_read _ _ _ _ _ H).
  destruct d as [|x d]; [reflexivity|].
  rewrite (finish_nonempty _ _ _ _ _ H) by discriminate. simpl.
  destruct (yrev a); [apply flip_y_state|reflexivity].
Qed.

(** X9.  A call with the archive in place and a recognised sub-format adds
    to the trace, in this order: the command line if [debug] is set, one
    launch of exactly that command line, and at most one removal of the
    temporary file; nothing else and no second launch. *)
Theorem X9_events_of_a_call env a s :
  is_Some (fs s !! file a) ->
  grib_type a = "grib1" \/ grib_type a = "grib2" ->
  exists rest,
    new_events s (snd (read_grib env a s))
    = debug_events a (the_cmd env a) ++ [the_launch env a] ++ rest
    /\ (rest = [] \/ rest = [EvRemove (temp_file env)]).
Proof.
  intros Hf [Ht|Ht]; unfold the_cmd, the_launch; rewrite Ht; simpl.
  - destruct (shell env (cmd1 env a) (fs s)) as [cause fs1|status out fs1] eqn:Hsh.
    + exists [EvRemove (temp_file env)]. split; [|now right].
      unfold read_grib, read_data, bind, os_path_isfile, wgrib_call.
      rewrite bool_decide_eq_true_2 by exact Hf. simpl.
      rewrite Ht. simpl. fold (cmd1 env a).
      unfold try_except, bind, subprocess_call, print, emit, ret, debug_events.
      destruct (debug a); simpl; rewrite Hsh; simpl;
        unfold os_remove; simpl; destruct (fs1 !! temp_file env); simpl;
        rewrite <- !app_assoc; apply new_events_app.
    + pose proof (read_data_grib1_ran env a s Hf status out fs1 Ht Hsh) as Hread.
      unfold np_fromfile in Hread. simpl in Hread.
      destruct (fs1 !! temp_file env) as [bs|].
      * rewrite (read_grib_state _ _ _ _ _ Hread).
        destruct (length (decode_f32 bs) =? 0)%nat.
        -- exists []. split; [|now left]. apply new_events_app.
        -- exists [EvRemove (temp_file env)]. split; [|now right].
           unfold cleaned. rewrite Ht. simpl.
           rewrite <- !app_assoc. apply new_events_app.
      * rewrite (read_grib_unread _ _ _ _ _ Hread).
        exists []. split; [|now left]. apply new_events_app.
  - assert (Hn : String.eqb (grib_type a) "grib1" = false) by now rewrite Ht.
    exists []. split; [|now left].
    destruct (shell env (cmd2 a) (fs s)) as [cause fs1|status out fs1] eqn:Hsh.
    + rewrite (read_grib_unread _ _ _ _ _
                 (read_data_grib2_not_launched env a s Hf cause fs1 Ht Hsh)).
      apply new_events_app.
    + pose proof (read_data_grib2_ran env a s Hf status out fs1 Ht Hsh) as Hread.
      unfold np_frombuffer in Hread.
      destruct (length out mod 4 =? 0)%nat.
      * rewrite (read_grib_state _ _ _ _ _ Hread). unfold cleaned. rewrite Hn.
        destruct (length (decode_f32 out) =? 0)%nat; apply new_events_app.
      * rewrite (read_grib_unread _ _ _ _ _ Hread). apply new_events_app.
Qed.

Lemma X9_witness :
  exists rest,
    new_events s0 (snd (read_grib env_found (with_debug true (call "grib1" None false None)) s0))
    = debug_events (with_debug true (call "grib1" None false None))
        (the_cmd env_found (with_debug true (call "grib1" None false None)))
      ++ [the_launch env_found (with_debug true (call "grib1" None false None))] ++ rest
    /\ (rest = [] \/ rest = [EvRemove (temp_file env_found)]).
Proof.
  apply (X9_events_of_a_call env_found (with_debug true (call "grib1" None false None)) s0).
  - vm_compute. eexists. reflexivity.
  - left. reflexivity.
Defined.

Lemma concat_Permutation (l1 l2 : list (list float32)) :
  l1 ≡ₚ l2 -> concat l1 ≡ₚ concat l2.
Proof.
  induction 1 as [|x l1 l2 _ IH|x y l|l1 l2 l3 _ IH1 _ IH2]; simpl.
  - reflexivity.
  - now rewrite IH.
  - rewrite !app_assoc. apply Permutation_app_tail, Permutation_app_comm.
  - now rewrite IH1.
Qed.

(** X14.  Whatever a call returns holds exactly the elements that were
    read, each as often as it was read; row reversal only reorders them. *)
Theorem X14_returned_elements env a s out s' :
  read_grib env a s = (inr out, s') ->
  exists d s1, read_data env a s = (inr d, s1) /\ out ≡ₚ d.
Proof.
  intros H. unfold read_grib, bind in H.
  destruct (read_data env a s) as [[e|d] s1] eqn:Hread; [discriminate|].
  exists d, s1. split; [reflexivity|].
  destruct d as [|x d]; [discriminate|].
  rewrite (finish_nonempty env a s (x :: d) s1 Hread) in H by discriminate.
  destruct (yrev a); [|injection H as <- _; reflexivity].
  destruct (grid a) as [g|]; [|rewrite flip_y_None in H; discriminate].
  destruct (decide (length (x :: d) = num_y g * num_x g)) as [Hfit|Hmis].
  - rewrite flip_y_fits in H by exact Hfit. injection H as <- _.
    unfold np_flatten, np_flipud.
    rewrite (concat_Permutation _ _ (reverse_Permutation _)).
    now rewrite concat_rows_of.
  - destruct (flip_y_misfit g (x :: d) (cleaned env a s1) Hmis) as (e & He & _).
    rewrite He in H. discriminate.
Qed.

Lemma X14_witness :
  exists d s1,
    read_data env_found (call "grib1" (Some (mkGeoGrid 2 2)) true None) s0 = (inr d, s1)
    /\ [e3; e4; e1; e2] ≡ₚ d.
Proof.
  apply (X14_returned_elements env_found (call "grib1" (Some (mkGeoGrid 2 2)) true None) s0
           [e3; e4; e1; e2]
           (snd (read_grib env_found (call "grib1" (Some (mkGeoGrid 2 2)) true None) s0))).
  vm_compute. reflexivity.
Defined.

(** X15.  A call that returns an array had its archive in place and a
    recognised sub-format; the array is not empty; with row reversal a grid
    was given and the array has exactly [num_y * num_x] elements; and after
    a grib1 call the temporary file does not exist. *)
Theorem X15_what_a_result_implies env a s out s' :
  read_grib env a s = (inr out, s') ->
  is_Some (fs s !! file a)
  /\ (grib_type a = "grib1" \/ grib_type a = "grib2")
  /\ out <> []
  /\ (yrev a = true -> exists g, grid a = Some g /\ length out = num_y g * num_x g)
  /\ (grib_type a = "grib1" -> fs s' !! temp_file env = None).
Proof.
  intros H. pose proof (read_grib_inr_nonempty _ _ _ _ _ H) as Hne.
  unfold read_grib, bind in H.
  destruct (read_data env a s) as [[e|d] s1] eqn:Hread; [discriminate|].
  destruct (read_data_inr env a s d s1 Hread) as (Hf & st & o & fs1 & Hcase).
  split; [exact Hf|]. split; [destruct Hcase as [(? & _)|(? & _)]; auto|].
  split; [exact Hne|].
  destruct d as [|x d]; [discriminate|].
  rewrite (finish_nonempty env a s (x :: d) s1 Hread) in H by discriminate.
  assert (Hs : s' = cleaned env a s1).
  { apply (f_equal snd) in H. simpl in H. rewrite <- H.
    destruct (yrev a); [apply flip_y_state|reflexivity]. }
  split.
  - intros Hy. rewrite Hy in H.
    destruct (grid a) as [g|]; [|rewrite flip_y_None in H; discriminate].
    exists g. split; [reflexivity|].
    destruct (decide (length (x :: d) = num_y g * num_x g)) as [Hfit|Hmis].
    + rewrite flip_y_fits in H by exact Hfit. injection H as <- _.
      rewrite length_flipped by exact Hfit. exact Hfit.
    + destruct (flip_y_misfit g (x :: d) (cleaned env a s1) Hmis) as (e & He & _).
      rewrite He in H. discriminate.
  - intros Ht. rewrite Hs. unfold cleaned. rewrite Ht. simpl. apply lookup_delete_eq.
Qed.

Lemma X15_witness :
  is_Some (fs s0 !! file (call "grib1" (Some (mkGeoGrid 2 2)) true None))
  /\ (grib_type (call "grib1" (Some (mkGeoGrid 2 2)) true None) = "grib1"
      \/ grib_type (call "grib1" (Some (mkGeoGrid 2 2)) true None) = "grib2")
  /\ [e3; e4; e1; e2] <> []
  /\ (yrev (call "grib1" (Some (mkGeoGrid 2 2)) true None) = true ->
      exists g, grid (call "grib1" (Some (mkGeoGrid 2 2)) true None) = Some g
                /\ length [e3; e4; e1; e2] = num_y g * num_x g)
  /\ (grib_type (call "grib1" (Some (mkGeoGrid 2 2)) true None) = "grib1" ->
      fs (snd (read_grib env_found (call "grib1" (Some (mkGeoGrid 2 2)) true None) s0))
      !! temp_file env_found = None).
Proof.
  apply (X15_what_a_result_implies env_found
           (call "grib1" (Some (mkGeoGrid 2 2)) true None) s0).
  vm_compute. reflexivity.
Defined.

(** ** What a run can raise *)

Section Raises.

Context (E : exn -> Prop).

Lemma raises_ret {A} (x : A) : raises E (ret x).
Proof. intros s e s' [=]. Qed.

Lemma raises_raise {A} (e : exn) : E e -> raises E (@raise A e).
Proof. intros He s e' s' [= <- _]. exact He. Qed.

Lemma raises_bind {A B} (m : M A) (k : A -> M B) :
  raises E m -> (forall x, raises E (k x)) -> raises E (bind m k).
Proof.
  intros Hm Hk s e s' H. unfold bind in H.
  destruct (m s) as [[e0|x] s1] eqn:Hms.
  - injection H as <- <-. exact (Hm _ _ _ Hms).
  - exact (Hk x _ _ _ H).
Qed.

Lemma raises_bind_inr {A B} (m : M A) (k : A -> M B) :
  raises E m -> (forall x s s1, m s = (inr x, s1) -> raises E (k x)) ->
  raises E (bind m k).
Proof.
  intros Hm Hk s e s' H. unfold bind in H.
  destruct (m s) as [[e0|x] s1] eqn:Hms.
  - injection H as <- <-. exact (Hm _ _ _ Hms).
  - exact (Hk x _ _ Hms _ _ _ H).
Qed.

Lemma raises_try_except {A} (body : M A) catches handler :
  raises (fun e => catches e = false -> E e) body ->
  (forall e, raises E (handler e)) ->
  raises E (try_except body catches handler).
Proof.
  intros Hb Hh s e s' H. unfold try_except in H.
  destruct (body s) as [[e0|x] s1] eqn:Hbs; [|discriminate].
  destruct (catches e0) eqn:Hc.
  - exact (Hh e0 _ _ _ H).
  - injection H as <- <-. exact (Hb _ _ _ Hbs Hc).
Qed.

Lemma raises_os_path_isfile path : raises E (os_path_isfile path).
Proof. intros s e s' [=]. Qed.

Lemma raises_emit ev : raises E (emit ev).
Proof. intros s e s' [=]. Qed.

Lemma raises_os_remove path : E (no_such_file path) -> raises E (os_remove path).
Proof.
  intros He s e s' H. unfold os_remove in H.
  destruct (fs s !! path); [discriminate|]. injection H as <- _. exact He.
Qed.

Lemma raises_np_fromfile path : E (no_such_file path) -> raises E (np_fromfile path).
Proof.
  intros He s e s' H. unfold np_fromfile in H.
  destruct (fs s !! path); [discriminate|]. injection H as <- _. exact He.
Qed.

Lemma raises_subprocess_call env cmd : (forall e, E e) -> raises E (subprocess_call env cmd).
Proof. intros He s e s' _. apply He. Qed.

Lemma raises_subprocess_Popen env cmd : (forall e, E e) -> raises E (subprocess_Popen env cmd).
Proof. intros He s e s' _. apply He. Qed.

End Raises.

Lemma flip_y_raises g d : raises (fun e => may_escape e = true) (flip_y g d).
Proof.
  unfold flip_y. apply raises_bind; [|intros; apply raises_ret].
  apply raises_try_except; [|intros; now apply raises_raise].
  unfold getattr_grid, np_reshape2. destruct g as [g|].
  - apply raises_bind; [apply raises_ret|intros r].
    apply raises_bind; [apply raises_ret|intros c].
    destruct (_ =? _)%nat; [apply raises_ret|now apply raises_raise].
  - apply raises_bind; [apply raises_raise; intros [=]|intros r].
    apply raises_bind; [apply raises_raise; intros [=]|intros c].
    destruct (_ =? _)%nat; [apply raises_ret|now apply raises_raise].
Qed.

Lemma read_grib_raises env a : raises (fun e => may_escape e = true) (read_grib env a).
Proof.
  unfold read_grib. apply raises_bind.
  - unfold read_data. apply raises_bind; [apply raises_os_path_isfile|intros isf].
    destruct (negb isf); [now apply raises_raise|].
    apply raises_bind.
    { unfold wgrib_call. repeat destruct (String.eqb _ _);
        first [apply raises_ret|now apply raises_raise]. }
    intros cmd. apply raises_bind.
    { destruct (debug a); [apply raises_emit|apply raises_ret]. }
    intros _. destruct (String.eqb (grib_type a) "grib1").
    + apply raises_bind; [|intros; now apply raises_np_fromfile].
      apply raises_try_except.
      * apply raises_bind; [|intros; apply raises_ret].
        apply raises_subprocess_call. intros e [=].
      * intros e. apply raises_bind; [|intros; now apply raises_raise].
        now apply raises_os_remove.
    + apply raises_bind_inr.
      * apply raises_try_except.
        -- apply raises_bind; [|intros; apply raises_ret].
           apply raises_subprocess_Popen. intros e [=].
        -- intros e. apply raises_bind; [apply raises_ret|intros; now apply raises_raise].
      * intros proc s s1 Hproc.
        assert (Hsome : is_Some proc).
        { unfold try_except, bind, subprocess_Popen, ret, raise in Hproc.
          destruct (shell env cmd (fs s)); simpl in Hproc; [discriminate|].
          injection Hproc as <- _. eexists. reflexivity. }
        destruct Hsome as [out ->]. unfold np_frombuffer.
        destruct (_ =? _)%nat; [apply raises_ret|now apply raises_raise].
  - intros data. unfold finish.
    destruct (_ =? _)%nat; [now apply raises_raise|].
    apply raises_bind.
    + destruct (String.eqb _ _); [now apply raises_os_remove|apply raises_ret].
    + intros _. destruct (yrev a); [apply flip_y_raises|apply raises_ret].
Qed.

(** X10.  Every exception that leaves a call is a [ReadingError], a
    [ValueError] or a [FileNotFoundError]: the exception of a failed launch
    and the [AttributeError] of a missing grid never leave it as they are. *)
Theorem X10_exceptions_of_a_call env a s e s' :
  read_grib env a s = (inl e, s') ->
  exn_cls e = ReadingError \/ exn_cls e = ValueError \/ exn_cls e = FileNotFoundError.
Proof.
  intros H. apply read_grib_raises in H. unfold may_escape in H.
  destruct (exn_cls e); auto; discriminate.
Qed.

Lemma X10_witness :
  exn_cls (DecodeError (call "grib2" None true None)
             (mkExn OSError "[Errno 12] Cannot allocate memory")) = ReadingError
  \/ exn_cls (DecodeError (call "grib2" None true None)
                (mkExn OSError "[Errno 12] Cannot allocate memory")) = ValueError
  \/ exn_cls (DecodeError (call "grib2" None true None)
                (mkExn OSError "[Errno 12] Cannot allocate memory")) = FileNotFoundError.
Proof.
  apply (X10_exceptions_of_a_call env_no_shell (call "grib2" None true None) s0 _
           (snd (read_grib env_no_shell (call "grib2" None true None) s0))).
  vm_compute. reflexivity.
Defined.

(** ** What a run removes and what it leaves *)

(** X11.  The only file a call ever tries to remove is its temporary file,
    and only a grib1 call tries. *)
Theorem X11_removes_only_temp_file env a s :
  Forall (fun ev => forall path, ev = EvRemove path ->
                      path = temp_file env /\ grib_type a = "grib1")
    (new_events s (snd (read_grib env a s))).
Proof.
  assert (Hem : emits (fun ev => forall path, ev = EvRemove path ->
                                   path = temp_file env /\ grib_type a = "grib1")
                  (read_grib env a)).
  { unfold read_grib. apply emits_bind.
    - unfold read_data. apply emits_bind; [apply emits_os_path_isfile|intros isf].
      destruct (negb isf); [apply emits_raise|].
      apply emits_bind.
      { unfold wgrib_call. repeat destruct (String.eqb _ _);
          first [apply emits_ret|apply emits_raise]. }
      intros cmd. apply emits_bind.
      { destruct (debug a); [apply emits_emit; intros ? [=]|apply emits_ret]. }
      intros _. apply emits_bind.
      + apply emits_try_except.
        * destruct (String.eqb _ _).
          -- apply emits_bind; [|intros; apply emits_ret].
             apply emits_subprocess_call. intros ? [=].
          -- apply emits_bind; [|intros; apply emits_ret].
             apply emits_subprocess_Popen. intros ? [=].
        * intros e. apply emits_bind; [|intros; apply emits_raise].
          destruct (String.eqb _ _) eqn:Ht; [|apply emits_ret].
          apply emits_os_remove. intros ? [= <-].
          split; [reflexivity|now apply String.eqb_eq].
      + intros proc. destruct (String.eqb _ _); [apply emits_np_fromfile|].
        destruct proc; [apply emits_np_frombuffer|apply emits_raise].
    - intros data. unfold finish.
      destruct (_ =? _)%nat; [apply emits_raise|].
      apply emits_bind.
      + destruct (String.eqb _ _) eqn:Ht; [|apply emits_ret].
        apply emits_os_remove. intros ? [= <-].
        split; [reflexivity|now apply String.eqb_eq].
      + intros _. destruct (yrev a); [apply emits_flip_y|apply emits_ret]. }
  destruct (Hem s) as (l & El & Fl).
  unfold new_events. rewrite El, drop_app_length. exact Fl.
Qed.

Section Keeps.

Context (R : state -> state -> Prop).
Hypothesis R_refl : forall s, R s s.
Hypothesis R_trans : forall s1 s2 s3, R s1 s2 -> R s2 s3 -> R s1 s3.

Lemma keeps_ret {A} (x : A) : keeps R (ret x).
Proof. intros s. apply R_refl. Qed.

Lemma keeps_raise {A} (e : exn) : keeps R (@raise A e).
Proof. intros s. apply R_refl. Qed.

Lemma keeps_bind {A B} (m : M A) (k : A -> M B) :
  keeps R m -> (forall x, keeps R (k x)) -> keeps R (bind m k).
Proof.
  intros Hm Hk s. unfold bind. specialize (Hm s).
  destruct (m s) as [[e|x] s1]; simpl in *; [exact Hm|].
  exact (R_trans _ _ _ Hm (Hk x s1)).
Qed.

Lemma keeps_try_except {A} (body : M A) catches handler :
  keeps R body -> (forall e, keeps R (handler e)) -> keeps R (try_except body catches handler).
Proof.
  intros Hm Hk s. unfold try_except. specialize (Hm s).
  destruct (body s) as [[e|x] s1]; simpl in *; [|exact Hm].
  destruct (catches e); [|exact Hm].
  exact (R_trans _ _ _ Hm (Hk e s1)).
Qed.

End Keeps.

(** X12.  A call changes no file but its temporary file, beyond what the
    shell does: a path other than the temporary file that the shell leaves
    as it is holds after the call what it held before. *)
Theorem X12_other_files_untouched env a s path :
  path <> temp_file env ->
  (forall cmd files, result_fs (shell env cmd files) !! path = files !! path) ->
  fs (snd (read_grib env a s)) !! path = fs s !! path.
Proof.
  intros Hp Hsh.
  set (R := fun s1 s2 : state => fs s2 !! path = fs s1 !! path).
  assert (Hrefl : forall s1, R s1 s1) by reflexivity.
  assert (Htrans : forall s1 s2 s3, R s1 s2 -> R s2 s3 -> R s1 s3)
    by (unfold R; intros ? ? ? H1 H2; now rewrite H2).
  assert (Hret : forall A (x : A), keeps R (ret x)) by (intros; now apply keeps_ret).
  assert (Hraise : forall A e, keeps R (@raise A e)) by (intros; now apply keeps_raise).
  assert (Hrm : keeps R (os_remove (temp_file env))).
  { intros s1. unfold R, os_remove. destruct (fs s1 !! temp_file env); simpl; [|reflexivity].
    apply lookup_delete_ne. congruence. }
  assert (Hcall : forall cmd, keeps R (subprocess_call env cmd)).
  { intros cmd s1. unfold R, subprocess_call. specialize (Hsh cmd (fs s1)).
    destruct (shell env cmd (fs s1)); exact Hsh. }
  assert (Hpopen : forall cmd, keeps R (subprocess_Popen env cmd)).
  { intros cmd s1. unfold R, subprocess_Popen. specialize (Hsh cmd (fs s1)).
    destruct (shell env cmd (fs s1)); exact Hsh. }
  assert (Hff : forall p, keeps R (np_fromfile p)).
  { intros p s1. unfold R, np_fromfile. destruct (fs s1 !! p); reflexivity. }
  assert (Hflip : forall g d, keeps R (flip_y g d)).
  { intros g d s1. unfold R. now rewrite flip_y_state. }
  assert (Hbind : forall A B (m : M A) (k : A -> M B),
             keeps R m -> (forall x, keeps R (k x)) -> keeps R (bind m k))
    by (intros; now apply keeps_bind).
  assert (Htry : forall A (body : M A) catches handler,
             keeps R body -> (forall e, keeps R (handler e)) ->
             keeps R (try_except body catches handler))
    by (intros; now apply keeps_try_except).
  assert (Hall : keeps R (read_grib env a)).
  { unfold read_grib. apply Hbind.
    - unfold read_data. apply Hbind; [intros s1; apply Hrefl|intros isf].
      destruct (negb isf); [apply Hraise|].
      apply Hbind.
      { unfold wgrib_call. repeat destruct (String.eqb _ _); first [apply Hret|apply Hraise]. }
      intros cmd. apply Hbind.
      { destruct (debug a); [intros s1; unfold R; reflexivity|apply Hret]. }
      intros _. apply Hbind.
      + apply Htry.
        * destruct (String.eqb _ _); (apply Hbind; [|intros; apply Hret]).
          -- apply Hcall.
          -- apply Hpopen.
        * intros e. apply Hbind; [|intros; apply Hraise].
          destruct (String.eqb _ _); [apply Hrm|apply Hret].
      + intros proc. destruct (String.eqb _ _); [apply Hff|].
        destruct proc; [|apply Hraise].
        unfold np_frombuffer. destruct (_ =? _)%nat; [apply Hret|apply Hraise].
    - intros data. unfold finish.
      destruct (_ =? _)%nat; [apply Hraise|].
      apply Hbind.
      + destruct (String.eqb _ _); [apply Hrm|apply Hret].
      + intros _. destruct (yrev a); [apply Hflip|apply Hret]. }
  exact (Hall s).
Qed.

Lemma X12_witness :
  fs (snd (read_grib env_found (call "grib1" None false None) s0)) !! "a.grb"
  = fs s0 !! "a.grb".
Proof.
  apply (X12_other_files_untouched env_found (call "grib1" None false None) s0 "a.grb").
  - vm_compute. discriminate.
  - intros cmd files. simpl. apply lookup_insert_ne. discriminate.
Defined.

(** ** What the outcome depends on *)

Section Sim.

Lemma sim_ret {A} (x : A) : sim (ret x) (ret x).
Proof. intros s1 s2 H. now split. Qed.

Lemma sim_raise {A} (e : exn) : sim (@raise A e) (raise e).
Proof. intros s1 s2 H. now split. Qed.

Lemma sim_bind {A B} (m1 m2 : M A) (k1 k2 : A -> M B) :
  sim m1 m2 -> (forall x, sim (k1 x) (k2 x)) -> sim (bind m1 k1) (bind m2 k2).
Proof.
  intros Hm Hk s1 s2 Hfs. unfold bind.
  destruct (Hm s1 s2 Hfs) as [Ho Hf].
  destruct (m1 s1) as [[e1|x1] t1], (m2 s2) as [[e2|x2] t2]; simpl in *; try discriminate.
  - injection Ho as ->. split; [reflexivity|assumption].
  - injection Ho as ->. now apply Hk.
Qed.

Lemma sim_try_except {A} (body1 body2 : M A) catches handler1 handler2 :
  sim body1 body2 -> (forall e, sim (handler1 e) (handler2 e)) ->
  sim (try_except body1 catches handler1) (try_except body2 catches handler2).
Proof.
  intros Hm Hk s1 s2 Hfs. unfold try_except.
  destruct (Hm s1 s2 Hfs) as [Ho Hf].
  destruct (body1 s1) as [[e1|x1] t1], (body2 s2) as [[e2|x2] t2]; simpl in *; try discriminate.
  - injection Ho as ->. destruct (catches e2); [now apply Hk|split; [reflexivity|assumption]].
  - split; assumption.
Qed.

Lemma sim_print_any (o1 o2 : option string) :
  sim (match o1 with Some l => print l | None => ret tt end)
      (match o2 with Some l => print l | None => ret tt end).
Proof. intros s1 s2 H. destruct o1, o2; now split. Qed.

Lemma sim_os_path_isfile path : sim (os_path_isfile path) (os_path_isfile path).
Proof. intros s1 s2 H. unfold os_path_isfile. cbn [fst snd]. now rewrite H. Qed.

Lemma sim_os_remove path : sim (os_remove path) (os_remove path).
Proof.
  intros s1 s2 H. unfold os_remove. rewrite H.
  destruct (fs s2 !! path); simpl; split; reflexivity.
Qed.

Lemma sim_np_fromfile path : sim (np_fromfile path) (np_fromfile path).
Proof.
  intros s1 s2 H. unfold np_fromfile. rewrite H.
  destruct (fs s2 !! path); now split.
Qed.

Lemma sim_subprocess_call env cmd : sim (subprocess_call env cmd) (subprocess_call env cmd).
Proof.
  intros s1 s2 H. unfold subprocess_call. rewrite H.
  destruct (shell env cmd (fs s2)); now split.
Qed.

Lemma sim_subprocess_Popen env cmd : sim (subprocess_Popen env cmd) (subprocess_Popen env cmd).
Proof.
  intros s1 s2 H. unfold subprocess_Popen. rewrite H.
  destruct (shell env cmd (fs s2)); now split.
Qed.

Lemma sim_flip_y g d : sim (flip_y g d) (flip_y g d).
Proof.
  intros s1 s2 H. rewrite !flip_y_state. split; [|exact H].
  destruct g as [g|]; [|reflexivity].
  destruct (decide (length d = num_y g * num_x g)) as [Hfit|Hmis].
  - now rewrite !flip_y_fits.
  - unfold flip_y, bind, try_except, getattr_grid, np_reshape2, ret, raise. simpl.
    apply Nat.eqb_neq in Hmis. rewrite Hmis. reflexivity.
Qed.

End Sim.

(** X13.  The outcome of a call and the file system it leaves depend on
    the state only through the file system, and not on [debug]: two calls
    that differ in [debug] and start on the same files, whatever was done
    before, return or raise the same and leave the same files. *)
Theorem X13_debug_changes_no_outcome env a b s1 s2 :
  fs s1 = fs s2 ->
  fst (read_grib env (with_debug b a) s1) = fst (read_grib env a s2)
  /\ fs (snd (read_grib env (with_debug b a) s1)) = fs (snd (read_grib env a s2)).
Proof.
  revert s1 s2. change (sim (read_grib env (with_debug b a)) (read_grib env a)).
  destruct a as [f t v l g y p dbg]. unfold with_debug. simpl.
  unfold read_grib. apply sim_bind.
  - unfold read_data. simpl.
    apply sim_bind; [apply sim_os_path_isfile|intros isf].
    destruct (negb isf); [apply sim_raise|].
    apply sim_bind.
    { unfold wgrib_call. simpl.
      repeat destruct (String.eqb _ _); first [apply sim_ret|apply sim_raise]. }
    intros cmd. apply sim_bind.
    { destruct b, dbg.
      - exact (sim_print_any (Some _) (Some _)).
      - exact (sim_print_any (Some _) None).
      - exact (sim_print_any None (Some _)).
      - exact (sim_print_any None None). }
    intros _. apply sim_bind.
    + apply sim_try_except.
      * destruct (String.eqb _ _); (apply sim_bind; [|intros; apply sim_ret]).
        -- apply sim_subprocess_call.
        -- apply sim_subprocess_Popen.
      * intros e. apply sim_bind; [|intros; apply sim_raise].
        destruct (String.eqb _ _); [apply sim_os_remove|apply sim_ret].
    + intros proc. destruct (String.eqb _ _); [apply sim_np_fromfile|].
      destruct proc; [|apply sim_raise].
      unfold np_frombuffer. destruct (_ =? _)%nat; [apply sim_ret|apply sim_raise].
  - intros data. unfold finish. simpl.
    destruct (_ =? _)%nat; [apply sim_raise|].
    apply sim_bind.
    + destruct (String.eqb _ _); [apply sim_os_remove|apply sim_ret].
    + intros _. destruct y; [apply sim_flip_y|apply sim_ret].
Qed.

Lemma X13_witness :
  fst (read_grib env_found (with_debug true (call "grib1" None false None))
         (mkState (fs s0) [EvStdout "start"]))
  = fst (read_grib env_found (call "grib1" None false None) s0)
  /\ fs (snd (read_grib env_found (with_debug true (call "grib1" None false None))
                (mkState (fs s0) [EvStdout "start"])))
     = fs (snd (read_grib env_found (call "grib1" None false None) s0)).
Proof.
  apply (X13_debug_changes_no_outcome env_found (call "grib1" None false None) true
           (mkState (fs s0) [EvStdout "start"]) s0).
  reflexivity.
Defined.

End Reading.
